(** * PN532 NFC driver (pn532/pn532.py): frame codec, error table, dispatcher

    A shallow embedding of the Python driver.  Python [bytes]/[bytearray]
    values are lists of integers ([list Z]); an item is a byte when it lies
    in [0, 256).  Exceptions are an explicit sum ([result]), the transport
    a subclass must supply ([_reset], [_wakeup], [_read_data], [_write_data],
    [_wait_ready]) is a record of state-passing operations, and every call
    made to the transport is recorded in a trace. *)

From Stdlib Require QArith HexadecimalString.
From Stdlib Require Import Ascii.
From stdpp Require Import gmap strings list.

Open Scope Z_scope.

(** ** Exceptions and results *)

(** The instance attributes set by [PN532Error.__init__]. *)
Record PN532Error_obj := mkPN532Error { err : Z; errmsg : string }.

(** The exception classes the driver raises or lets through.  A
    [RuntimeError] carries its message and any further arguments. *)
Inductive exn :=
| RuntimeError (msg : string) (args : list Z)
| BusyError
| OSError
| AssertionError (msg : string)
| IndexError
| TypeError
| ValueError
| KeyError (key : Z)
| NotImplementedError
| PN532Error (e : PN532Error_obj).

#[global] Instance PN532Error_obj_eq_dec : EqDecision PN532Error_obj.
Proof. solve_decision. Defined.

#[global] Instance exn_eq_dec : EqDecision exn.
Proof. solve_decision. Defined.

Inductive result (A : Type) :=
| Ok (a : A)
| Raise (e : exn).
Arguments Ok {A} a.
Arguments Raise {A} e.

Definition rbind {A B} (r : result A) (k : A -> result B) : result B :=
  match r with
  | Ok a => k a
  | Raise e => Raise e
  end.

(** [if c: raise e]. *)
Definition raise_if (c : bool) (e : exn) : result unit :=
  if c then Raise e else Ok tt.

(** [assert c, msg]. *)
Definition assert (c : bool) (msg : string) : result unit :=
  if c then Ok tt else Raise (AssertionError msg).

Declare Scope py_scope.
Delimit Scope py_scope with py.
Notation "x <~ r ; k" := (rbind r (fun x => k))
  (at level 100, r at next level, right associativity) : py_scope.
Notation "r ;~ k" := (rbind r (fun _ => k))
  (at level 100, right associativity) : py_scope.

(** ** Python sequence operations on byte strings *)

Definition is_byte (b : Z) : bool := (0 <=? b) && (b <? 256).

(** [bytearray(n)]: [n] zero bytes. *)
Definition bytearray (n : nat) : list Z := replicate n 0.

(** [sum(seq)]. *)
Definition sum (l : list Z) : Z := foldr Z.add 0 l.

(** [seq[i]] for [0 <= i]; out of range raises [IndexError]. *)
Definition getitem (l : list Z) (i : nat) : result Z :=
  match l !! i with
  | Some b => Ok b
  | None => Raise IndexError
  end.

(** [arr[i] = v] on a bytearray, [0 <= i]: [IndexError] out of range,
    [ValueError] when [v] is not in [range(256)]. *)
Definition setitem (l : list Z) (i : nat) (v : Z) : result (list Z) :=
  if decide (i < length l)%nat
  then if is_byte v then Ok (<[i:=v]> l) else Raise ValueError
  else Raise IndexError.

(** [seq[lo:hi]] for [0 <= lo], [0 <= hi]; the bounds are clamped. *)
Definition getslice (l : list Z) (lo hi : nat) : list Z :=
  take (hi - lo) (drop lo l).

(** [arr[lo:hi] = vs] on a bytearray, [0 <= lo], [0 <= hi]: the items of
    [vs] must be bytes. *)
Definition setslice (l : list Z) (lo hi : nat) (vs : list Z) : result (list Z) :=
  if forallb is_byte vs
  then Ok (take lo l ++ vs ++ drop (lo `max` hi) l)
  else Raise ValueError.

(** [x[i]] where [x] may be [None]: subscripting [None] is a [TypeError]. *)
Definition subscript (x : option (list Z)) (i : nat) : result Z :=
  match x with
  | None => Raise TypeError
  | Some l => getitem l i
  end.

(** [x[lo:]] where [x] may be [None]. *)
Definition subscript_from (x : option (list Z)) (lo : nat) : result (list Z) :=
  match x with
  | None => Raise TypeError
  | Some l => Ok (drop lo l)
  end.

(** ** Module constants *)

Definition _PREAMBLE : Z := 0x00.
Definition _STARTCODE1 : Z := 0x00.
Definition _STARTCODE2 : Z := 0xFF.
Definition _POSTAMBLE : Z := 0x00.

Definition _HOSTTOPN532 : Z := 0xD4.
Definition _PN532TOHOST : Z := 0xD5.

Definition _COMMAND_GETFIRMWAREVERSION : Z := 0x02.
Definition _COMMAND_SAMCONFIGURATION : Z := 0x14.
Definition _COMMAND_INLISTPASSIVETARGET : Z := 0x4A.
Definition _COMMAND_INDATAEXCHANGE : Z := 0x40.

Definition _MIFARE_ISO14443A : Z := 0x00.

Definition MIFARE_CMD_AUTH_A : Z := 0x60.
Definition MIFARE_CMD_AUTH_B : Z := 0x61.
Definition MIFARE_CMD_READ : Z := 0x30.
Definition MIFARE_CMD_WRITE : Z := 0xA0.

Definition _ACK : list Z := [0x00; 0x00; 0xFF; 0x00; 0xFF; 0x00].
Definition _FRAME_START : list Z := [0x00; 0x00; 0xFF].

Section ErrorTable.
Local Open Scope string_scope.

(** The dict [PN532_ERRORS]. *)
Definition PN532_ERRORS : gmap Z string :=
  list_to_map
    [ (0x01, "PN532 ERROR TIMEOUT");
      (0x02, "PN532 ERROR CRC");
      (0x03, "PN532 ERROR PARITY");
      (0x04, "PN532 ERROR COLLISION_BITCOUNT");
      (0x05, "PN532 ERROR MIFARE_FRAMING");
      (0x06, "PN532 ERROR COLLISION_BITCOLLISION");
      (0x07, "PN532 ERROR NOBUFS");
      (0x09, "PN532 ERROR RFNOBUFS");
      (0x0a, "PN532 ERROR ACTIVE_TOOSLOW");
      (0x0b, "PN532 ERROR RFPROTO");
      (0x0d, "PN532 ERROR TOOHOT");
      (0x0e, "PN532 ERROR INTERNAL_NOBUFS");
      (0x10, "PN532 ERROR INVAL");
      (0x12, "PN532 ERROR DEP_INVALID_COMMAND");
      (0x13, "PN532 ERROR DEP_BADDATA");
      (0x14, "PN532 ERROR MIFARE_AUTH");
      (0x18, "PN532 ERROR NOSECURE");
      (0x19, "PN532 ERROR I2CBUSY");
      (0x23, "PN532 ERROR UIDCHECKSUM");
      (0x25, "PN532 ERROR DEPSTATE");
      (0x26, "PN532 ERROR HCIINVAL");
      (0x27, "PN532 ERROR CONTEXT");
      (0x29, "PN532 ERROR RELEASED");
      (0x2a, "PN532 ERROR CARDSWAPPED");
      (0x2b, "PN532 ERROR NOCARD");
      (0x2c, "PN532 ERROR MISMATCH");
      (0x2d, "PN532 ERROR OVERCURRENT");
      (0x2e, "PN532 ERROR NONAD") ].

End ErrorTable.

(** The subscription [d[k]] of a dict: a missing key raises [KeyError]. *)
Definition dict_getitem (d : gmap Z string) (k : Z) : result string :=
  match d !! k with
  | Some v => Ok v
  | None => Raise (KeyError k)
  end.

(** [PN532Error.__init__(self, err)]: the evaluation of [PN532Error(err)]. *)
Definition PN532Error__init__ (err : Z) : result PN532Error_obj :=
  (errmsg <~ dict_getitem PN532_ERRORS err;
   Ok (mkPN532Error err errmsg))%py.

(** ** The transport and the instrumented state *)

(** Seconds, as the rationals the source passes ([1], [0.5]). *)
Abbreviation timeout_t := QArith_base.Q.

(** The hardware methods of class [PN532] that "subclasses MUST
    implement", over a device state [S].  Each may raise. *)
Record transport (S : Type) := {
  _reset : Z -> S -> result unit * S;
  _read_data : nat -> S -> result (list Z) * S;
  _write_data : list Z -> S -> result unit * S;
  _wait_ready : timeout_t -> S -> result bool * S;
  _wakeup : S -> result unit * S
}.
Arguments _reset {S} _ _ _.
Arguments _read_data {S} _ _ _.
Arguments _write_data {S} _ _ _.
Arguments _wait_ready {S} _ _ _.
Arguments _wakeup {S} _ _.

(** One entry per call made to the transport, in call order. *)
Inductive event :=
| EvReset (pin : Z)
| EvWakeup
| EvWrite (framebytes : list Z)
| EvWaitReady (timeout : timeout_t)
| EvRead (count : nat).

(** Device state together with the calls made so far. *)
Record world (S : Type) := World { dev : S; trace : list event }.
Arguments World {S} dev trace.
Arguments dev {S} w.
Arguments trace {S} w.

(** Computations of the driver: they thread the world and may raise; the
    world reached when an exception is raised is kept. *)
Definition M (S A : Type) : Type := world S -> result A * world S.

Definition ret {S A} (a : A) : M S A := fun w => (Ok a, w).
Definition raise {S A} (e : exn) : M S A := fun w => (Raise e, w).
Definition lift {S A} (r : result A) : M S A := fun w => (r, w).

Definition bind {S A B} (m : M S A) (k : A -> M S B) : M S B :=
  fun w =>
    match m w with
    | (Ok a, w') => k a w'
    | (Raise e, w') => (Raise e, w')
    end.

(** [try: body / except <classes>: handler]: [catches e] tells whether the
    [except] clause matches [e]. *)
Definition try_except {S A} (body : M S A) (catches : exn -> bool)
    (handler : M S A) : M S A :=
  fun w =>
    match body w with
    | (Ok a, w') => (Ok a, w')
    | (Raise e, w') => if catches e then handler w' else (Raise e, w')
    end.

(** A call to a transport method: log it, then run it on the device. *)
Definition call {S A} (ev : event) (op : S -> result A * S) : M S A :=
  fun w =>
    let '(r, d) := op (dev w) in
    (r, World d (trace w ++ [ev])).

Notation "x <- m ;; k" := (bind m (fun x => k))
  (at level 100, m at next level, right associativity) : py_scope.
Notation "m ;; k" := (bind m (fun _ => k))
  (at level 100, right associativity) : py_scope.

Definition is_BusyError (e : exn) : bool :=
  match e with BusyError => true | _ => false end.
Definition is_OSError (e : exn) : bool :=
  match e with OSError => true | _ => false end.
(** [NotImplementedError] is a subclass of [RuntimeError]. *)
Definition is_RuntimeError (e : exn) : bool :=
  match e with RuntimeError _ _ | NotImplementedError => true | _ => false end.

(** What a block that may [return] early hands to the code after it. *)
Inductive flow (A R : Type) :=
| Next (a : A)
| Return (r : R).
Arguments Next {A R} a.
Arguments Return {A R} r.

(** ** Class PN532 *)

Module PN532.

(** The frame [_write_frame] builds from [data] before it sends it. *)
Definition frame_bytes (data : list Z) : result (list Z) :=
  (assert (bool_decide (1 < length data < 255)%nat)
     "Data must be array of 1 to 255 bytes." ;~
   let length := length data in
   let frame := bytearray (length + 7) in
   frame <~ setitem frame 0 _PREAMBLE ;
   frame <~ setitem frame 1 _STARTCODE1 ;
   frame <~ setitem frame 2 _STARTCODE2 ;
   let checksum := sum (getslice frame 0 3) in
   frame <~ setitem frame 3 (Z.land (Z.of_nat length) 0xFF) ;
   frame <~ setitem frame 4 (Z.land (Z.lnot (Z.of_nat length) + 1) 0xFF) ;
   (* frame[5:-2] = data *)
   frame <~ setslice frame 5 (List.length frame - 2) data ;
   let checksum := checksum + sum data in
   (* frame[-2], frame[-1] *)
   frame <~ setitem frame (List.length frame - 2) (Z.land (Z.lnot checksum) 0xFF) ;
   frame <~ setitem frame (List.length frame - 1) _POSTAMBLE ;
   Ok frame)%py.

(** The loop [while response[offset] == 0x00: ...] of [_read_frame].  [rest]
    is [response[offset:]]; the result is the offset at which the loop
    exits.  [response[offset]] is out of range only when [rest] is empty,
    and the test [offset >= len(response)] after the increment holds exactly
    when the remaining suffix is empty. *)
Fixpoint swallow_zeros (rest : list Z) (offset : nat) : result nat :=
  match rest with
  | [] => Raise IndexError
  | b :: rest' =>
      if decide (b = 0x00) then
        let offset := (offset + 1)%nat in
        match rest' with
        | [] => Raise (RuntimeError "Response frame preamble does not contain 0x00FF!" [])
        | _ => swallow_zeros rest' offset
        end
      else Ok offset
  end.

(** The parsing done by [_read_frame] on the bytes it has read. *)
Definition parse_frame (response : list Z) : result (list Z) :=
  (offset <~ swallow_zeros response 0 ;
   b <~ getitem response offset ;
   raise_if (bool_decide (b ≠ 0xFF))
     (RuntimeError "Response frame preamble does not contain 0x00FF!" []) ;~
   let offset := (offset + 1)%nat in
   (* offset >= len(response) *)
   raise_if (bool_decide (length response <= offset)%nat)
     (RuntimeError "Response contains no data!" []) ;~
   frame_len <~ getitem response offset ;
   lcs <~ getitem response (offset + 1) ;
   raise_if (bool_decide (Z.land (frame_len + lcs) 0xFF ≠ 0))
     (RuntimeError "Response length checksum did not match length!" []) ;~
   let checksum :=
     Z.land (sum (getslice response (offset + 2) (offset + 2 + Z.to_nat frame_len + 1))) 0xFF in
   raise_if (bool_decide (checksum ≠ 0))
     (RuntimeError "Response checksum did not match expected value: " [checksum]) ;~
   Ok (getslice response (offset + 2) (offset + 2 + Z.to_nat frame_len)))%py.

Section Driver.
Context {S : Type} (hw : transport S).

Definition _write_frame (data : list Z) : M S unit :=
  (frame <- lift (frame_bytes data) ;;
   call (EvWrite frame) (_write_data hw frame))%py.

Definition _read_frame (length : nat) : M S (list Z) :=
  (response <- call (EvRead (length + 7)) (_read_data hw (length + 7)) ;;
   lift (parse_frame response))%py.

(** The loop [for i, val in enumerate(params): data[2+i] = val]. *)
Fixpoint store_params (data : list Z) (i : nat) (params : list Z) : result (list Z) :=
  match params with
  | [] => Ok data
  | val :: params' =>
      (data <~ setitem data (2 + i) val ;
       store_params data (i + 1) params')%py
  end.

(** The frame data [call_function] builds from the command and parameters. *)
Definition command_data (command : Z) (params : option (list Z)) : result (list Z) :=
  (let params := match params with None => [] | Some params => params end in
   let data := bytearray (2 + length params) in
   data <~ setitem data 0 _HOSTTOPN532 ;
   data <~ setitem data 1 (Z.land command 0xFF) ;
   store_params data 0 params)%py.

(** [call_function(command, response_length, params, timeout)]; the result
    [None] is "no response". *)
Definition call_function (command : Z) (response_length : nat)
    (params : option (list Z)) (timeout : timeout_t) : M S (option (list Z)) :=
  (data <- lift (command_data command params) ;;
   sent <- try_except (_write_frame data ;; ret (Next tt)) is_OSError
             (call EvWakeup (_wakeup hw) ;; ret (Return None)) ;;
   match sent with
   | Return r => ret r
   | Next _ =>
       ready <- call (EvWaitReady timeout) (_wait_ready hw timeout) ;;
       if negb ready then ret None else
       ack <- call (EvRead (length _ACK)) (_read_data hw (length _ACK)) ;;
       if negb (bool_decide (_ACK = ack))
       then raise (RuntimeError "Did not receive expected ACK from PN532!" []) else
       ready <- call (EvWaitReady timeout) (_wait_ready hw timeout) ;;
       if negb ready then ret None else
       response <- _read_frame (response_length + 2) ;;
       r0 <- lift (getitem response 0) ;;
       matches <- (if bool_decide (r0 = _PN532TOHOST)
                   then r1 <- lift (getitem response 1) ;;
                        ret (bool_decide (r1 = command + 1))
                   else ret false) ;;
       if negb matches
       then raise (RuntimeError "Received unexpected command response!" []) else
       ret (Some (drop 2 response))
   end)%py.

(** [get_firmware_version()]: the four result bytes. *)
Definition get_firmware_version : M S (list Z) :=
  (response <- call_function _COMMAND_GETFIRMWAREVERSION 4 None (QArith_base.Qmake 1 2) ;;
   match response with
   | None => raise (RuntimeError "Failed to detect the PN532" [])
   | Some response => ret response
   end)%py.

Definition SAM_configuration : M S unit :=
  (call_function _COMMAND_SAMCONFIGURATION 0 (Some [0x01; 0x14; 0x01])
     (QArith_base.Qmake 1 1) ;;
   ret tt)%py.

(** [read_passive_target(card_baud, timeout)]: the UID, or [None] when no
    card is found. *)
Definition read_passive_target (card_baud : Z) (timeout : timeout_t)
    : M S (option (list Z)) :=
  (got <- try_except
            (response <- call_function _COMMAND_INLISTPASSIVETARGET 19
                           (Some [0x01; card_baud]) timeout ;;
             ret (Next response))
            is_BusyError
            (ret (Return None)) ;;
   match got with
   | Return r => ret r
   | Next None => ret None
   | Next (Some response) =>
       r0 <- lift (getitem response 0) ;;
       if bool_decide (r0 ≠ 0x01)
       then raise (RuntimeError "More than one card detected!" []) else
       r5 <- lift (getitem response 5) ;;
       if bool_decide (r5 > 7)
       then raise (RuntimeError "Found card with unexpectedly long UID!" []) else
       ret (Some (getslice response 6 (6 + Z.to_nat r5)))
   end)%py.

(** The parameters [mifare_classic_authenticate_block] builds. *)
Definition authenticate_params (uid : list Z) (block_number key_number : Z)
    (key : list Z) : result (list Z) :=
  (let uidlen := length uid in
   let keylen := length key in
   let params := bytearray (3 + uidlen + keylen) in
   params <~ setitem params 0 0x01 ;
   params <~ setitem params 1 (Z.land key_number 0xFF) ;
   params <~ setitem params 2 (Z.land block_number 0xFF) ;
   params <~ setslice params 3 (3 + keylen) key ;
   (* params[3+keylen:] = uid *)
   params <~ setslice params (3 + keylen) (length params) uid ;
   Ok params)%py.

(** The status check shared by the three MIFARE operations:
    [if response[0]: raise PN532Error(response[0])]. *)
Definition check_status (response : option (list Z)) : result unit :=
  (status <~ subscript response 0 ;
   if bool_decide (status ≠ 0)
   then (status <~ subscript response 0 ;
         e <~ PN532Error__init__ status ;
         Raise (PN532Error e))
   else Ok tt)%py.

Definition mifare_classic_authenticate_block (uid : list Z)
    (block_number key_number : Z) (key : list Z) : M S bool :=
  (params <- lift (authenticate_params uid block_number key_number key) ;;
   response <- call_function _COMMAND_INDATAEXCHANGE 1 (Some params)
                 (QArith_base.Qmake 1 1) ;;
   lift (check_status response) ;;
   status <- lift (subscript response 0) ;;
   ret (bool_decide (status = 0x00)))%py.

Definition mifare_classic_read_block (block_number : Z) : M S (list Z) :=
  (response <- call_function _COMMAND_INDATAEXCHANGE 17
                 (Some [0x01; MIFARE_CMD_READ; Z.land block_number 0xFF])
                 (QArith_base.Qmake 1 1) ;;
   lift (check_status response) ;;
   lift (subscript_from response 1))%py.

(** The parameters [mifare_classic_write_block] builds. *)
Definition write_params (block_number : Z) (data : list Z) : result (list Z) :=
  (assert (bool_decide (length data = 16%nat)) "Data must be an array of 16 bytes!" ;~
   let params := bytearray 19 in
   params <~ setitem params 0 0x01 ;
   params <~ setitem params 1 MIFARE_CMD_WRITE ;
   params <~ setitem params 2 (Z.land block_number 0xFF) ;
   (* params[3:] = data *)
   params <~ setslice params 3 (length params) data ;
   Ok params)%py.

Definition mifare_classic_write_block (block_number : Z) (data : list Z) : M S bool :=
  (params <- lift (write_params block_number data) ;;
   response <- call_function _COMMAND_INDATAEXCHANGE 1 (Some params)
                 (QArith_base.Qmake 1 1) ;;
   lift (check_status response) ;;
   status <- lift (subscript response 0) ;;
   ret (bool_decide (status = 0x0)))%py.

(** [if reset:] — [None] and pin [0] are falsy. *)
Definition truthy (reset : option Z) : bool :=
  match reset with
  | None => false
  | Some pin => bool_decide (pin ≠ 0)
  end.

(** The constructor [PN532(debug=..., reset=...)]; [debug] only selects
    printing and is left out. *)
Definition __init__ (reset : option Z) : M S unit :=
  ((match reset with
    | Some pin => if truthy reset then call (EvReset pin) (_reset hw pin) else ret tt
    | None => ret tt
    end) ;;
   done <- try_except
             (call EvWakeup (_wakeup hw) ;;
              get_firmware_version ;;
              ret (Return tt))
             (fun e => is_BusyError e || is_RuntimeError e)
             (ret (Next tt)) ;;
   match done with
   | Return r => ret r
   | Next _ => get_firmware_version ;; ret tt
   end)%py.

End Driver.
End PN532.

(** ** Synthetic transports *)

(** A loopback wire: what is written can be read back, in order; the device
    is always ready. *)
Definition loopback : transport (list Z) := {|
  _reset := fun _ wire => (Ok tt, wire);
  _read_data := fun count wire => (Ok (take count wire), drop count wire);
  _write_data := fun framebytes wire => (Ok tt, wire ++ framebytes);
  _wait_ready := fun _ wire => (Ok true, wire);
  _wakeup := fun wire => (Ok tt, wire)
|}.

(** A scripted device: each method answers with the next entry of its own
    queue.  With an empty queue a write succeeds, the device is not ready
    and a read returns no bytes. *)
Record script := Script {
  on_write : list (result unit);
  on_ready : list bool;
  on_read : list (list Z)
}.

Definition scripted : transport script := {|
  _reset := fun _ sc => (Ok tt, sc);
  _read_data := fun count sc =>
    match on_read sc with
    | [] => (Ok [], sc)
    | buf :: rest => (Ok (take count buf), Script (on_write sc) (on_ready sc) rest)
    end;
  _write_data := fun _ sc =>
    match on_write sc with
    | [] => (Ok tt, sc)
    | r :: rest => (r, Script rest (on_ready sc) (on_read sc))
    end;
  _wait_ready := fun _ sc =>
    match on_ready sc with
    | [] => (Ok false, sc)
    | b :: rest => (Ok b, Script (on_write sc) rest (on_read sc))
    end;
  _wakeup := fun sc => (Ok tt, sc)
|}.

(** The frame a card with the 4-byte UID AA BB CC DD sends in answer to
    InListPassiveTarget: one target, SENS_RES 00 04, SEL_RES 08. *)
Definition card_answer : list Z :=
  [0x00; 0x00; 0xFF; 0x0C; 0xF4; 0xD5; 0x4B; 0x01; 0x01; 0x00; 0x04; 0x08; 0x04;
   0xAA; 0xBB; 0xCC; 0xDD; 0xC0; 0x00].

(** The frame sent in answer to GetFirmwareVersion: IC 0x32, version 1.6,
    support 7. *)
Definition firmware_answer : list Z :=
  [0x00; 0x00; 0xFF; 0x06; 0xFA; 0xD5; 0x03; 0x32; 0x01; 0x06; 0x07; 0xE8; 0x00].

(** ** Predicates used in the statements *)

(** The items of a Python [bytes] object. *)
Definition bytes_ok (l : list Z) : Prop := Forall (fun b => 0 <= b < 256) l.

(** The two checksum failures of [_read_frame]. *)
Definition checksum_mismatch (e : exn) : Prop :=
  e = RuntimeError "Response length checksum did not match length!" [] \/
  exists checksum,
    e = RuntimeError "Response checksum did not match expected value: " [checksum].

(** The failure of [_read_frame] when no [0xFF] start code is found. *)
Definition preamble_error : exn :=
  RuntimeError "Response frame preamble does not contain 0x00FF!" [].

(** The failure of [_read_frame] when the start code ends the buffer. *)
Definition no_data_error : exn := RuntimeError "Response contains no data!" [].

Definition is_write (ev : event) : bool :=
  match ev with EvWrite _ => true | _ => false end.
Definition is_wakeup (ev : event) : bool :=
  match ev with EvWakeup => true | _ => false end.

(** The constructor's reset step has run without raising: the world is
    unchanged when [reset] is falsy, else [_reset(reset)] was called and
    returned. *)
Definition reset_done {S} (hw : transport S) (reset : option Z) (w0 w : world S) : Prop :=
  match reset with
  | Some pin =>
      if bool_decide (pin <> 0)
      then exists d, _reset hw pin (dev w0) = (Ok tt, d) /\ w = World d (trace w0 ++ [EvReset pin])
      else w = w0
  | None => w = w0
  end.

(** The keys of [PN532_ERRORS]. *)
Definition enumerated_codes : list Z :=
  [0x01; 0x02; 0x03; 0x04; 0x05; 0x06; 0x07; 0x09; 0x0a; 0x0b; 0x0d; 0x0e;
   0x10; 0x12; 0x13; 0x14; 0x18; 0x19; 0x23; 0x25; 0x26; 0x27; 0x29; 0x2a;
   0x2b; 0x2c; 0x2d; 0x2e].

(** What [PN532Error(status)] does at one status byte: an enumerated code
    gives the error object with that code, any other byte a [KeyError]. *)
Definition classify_check (status : Z) : bool :=
  match PN532Error__init__ status with
  | Ok e => bool_decide (status ∈ enumerated_codes) && bool_decide (err e = status)
  | Raise e => bool_decide (status ∉ enumerated_codes) && bool_decide (e = KeyError status)
  end.

(** The class [PN532] itself, not extended: every hardware method raises
    [NotImplementedError]. *)
Definition base_class : transport unit := {|
  _reset := fun _ u => (Raise NotImplementedError, u);
  _read_data := fun _ u => (Raise NotImplementedError, u);
  _write_data := fun _ u => (Raise NotImplementedError, u);
  _wait_ready := fun _ u => (Raise NotImplementedError, u);
  _wakeup := fun u => (Raise NotImplementedError, u)
|}.

(** A complete exchange with the device, as [call_function] drives it: the
    device takes [frame], becomes ready, answers the read of [len(_ACK)]
    bytes with [_ACK], becomes ready again and answers the read of [count]
    bytes with [response].  [w'] is the world after these five calls. *)
Definition acked_exchange {S} (hw : transport S) (timeout : timeout_t)
    (frame : list Z) (count : nat) (response : list Z) (w w' : world S) : Prop :=
  exists d1 d2 d3 d4 d5,
    _write_data hw frame (dev w) = (Ok tt, d1) /\
    _wait_ready hw timeout d1 = (Ok true, d2) /\
    _read_data hw (length _ACK) d2 = (Ok _ACK, d3) /\
    _wait_ready hw timeout d3 = (Ok true, d4) /\
    _read_data hw count d4 = (Ok response, d5) /\
    w' = World d5 (trace w ++ [EvWrite frame; EvWaitReady timeout; EvRead (length _ACK);
                               EvWaitReady timeout; EvRead count]).

(** The failure of [call_function] when the result frame does not answer
    the command. *)
Definition unexpected_response : exn :=
  RuntimeError "Received unexpected command response!" [].

(** Frames a device sends in answer to InDataExchange: status 0x00 alone,
    status 0x14 (MIFARE authentication error), and status 0x00 followed by
    the 16 bytes 00 01 .. 0F of a block. *)
Definition status_ok_answer : list Z :=
  [0x00; 0x00; 0xFF; 0x03; 0xFD; 0xD5; 0x41; 0x00; 0xEA; 0x00].
Definition auth_failed_answer : list Z :=
  [0x00; 0x00; 0xFF; 0x03; 0xFD; 0xD5; 0x41; 0x14; 0xD6; 0x00].
Definition block_answer : list Z :=
  [0x00; 0x00; 0xFF; 0x13; 0xED; 0xD5; 0x41; 0x00;
   0x00; 0x01; 0x02; 0x03; 0x04; 0x05; 0x06; 0x07;
   0x08; 0x09; 0x0A; 0x0B; 0x0C; 0x0D; 0x0E; 0x0F; 0x72; 0x00].

(** The frames of GetFirmwareVersion, of InListPassiveTarget for one
    ISO14443A card and of the read of block 4, as [call_function] writes
    them. *)
Definition firmware_command : list Z :=
  [0x00; 0x00; 0xFF; 0x02; 0xFE; 0xD4; 0x02; 0x2A; 0x00].
Definition list_target_command : list Z :=
  [0x00; 0x00; 0xFF; 0x04; 0xFC; 0xD4; 0x4A; 0x01; 0x00; 0xE1; 0x00].
Definition read_block4_command : list Z :=
  [0x00; 0x00; 0xFF; 0x05; 0xFB; 0xD4; 0x40; 0x01; 0x30; 0x04; 0xB7; 0x00].

(** The payload check that ends [call_function], on the parsed payload. *)
Definition answer_of (command : Z) (payload : list Z) : result (option (list Z)) :=
  match payload with
  | [] => Raise IndexError
  | r0 :: tl =>
      if bool_decide (r0 = _PN532TOHOST) then
        match tl with
        | [] => Raise IndexError
        | r1 :: result =>
            if bool_decide (r1 = command + 1) then Ok (Some result)
            else Raise unexpected_response
        end
      else Raise unexpected_response
  end.

(** A device that is always ready, acknowledges the first read and answers
    every later read with [firmware_answer]; its state counts the reads. *)
Definition firmware_device : transport nat := {|
  _reset := fun _ reads => (Ok tt, reads);
  _read_data := fun count reads =>
    (Ok (take count (match reads with O => _ACK | _ => firmware_answer end)), Datatypes.S reads);
  _write_data := fun _ reads => (Ok tt, reads);
  _wait_ready := fun _ reads => (Ok true, reads);
  _wakeup := fun reads => (Ok tt, reads)
|}.

(** ** The script dump_mifare.py *)

(** The upper-case form of a hexadecimal digit. *)
Definition upper_hex (c : Ascii.ascii) : Ascii.ascii :=
  if Ascii.eqb c "a"%char then "A"%char else
  if Ascii.eqb c "b"%char then "B"%char else
  if Ascii.eqb c "c"%char then "C"%char else
  if Ascii.eqb c "d"%char then "D"%char else
  if Ascii.eqb c "e"%char then "E"%char else
  if Ascii.eqb c "f"%char then "F"%char else c.

Fixpoint string_map (f : Ascii.ascii -> Ascii.ascii) (s : string) : string :=
  match s with
  | EmptyString => EmptyString
  | String c s' => String (f c) (string_map f s')
  end.

(** The upper-case hexadecimal digits of a natural number, ["0"] for 0. *)
Definition hex_digits (n : N) : string :=
  string_map upper_hex (HexadecimalString.NilZero.string_of_uint (N.to_hex_uint n)).

(** ['%02X' % x]: upper-case hexadecimal, padded with a zero to two
    characters; a negative number has its sign in front. *)
Definition format_02X (x : Z) : string :=
  if x <? 0 then String "-"%char (hex_digits (Z.to_N (- x)))
  else
    let digits := hex_digits (Z.to_N x) in
    if (String.length digits <? 2)%nat then String "0"%char digits else digits.

(** [' '.join(['%02X' % x for x in data])]. *)
Definition format_block (data : list Z) : string :=
  String.concat " "%string (map format_02X data).

Section Expected.
Local Open Scope string_scope.

(** The list [hatzCorect] of the script. *)
Definition hatzCorect : list string :=
  [ "E5 01 54 23 93 08 04 00 62 63 64 65 66 67 68 69";
    "00 00 00 00 00 00 00 00 00 00 00 00 00 00 00 00";
    "00 00 00 00 00 00 00 00 00 00 00 00 00 00 00 00";
    "00 00 00 00 00 00 FF 07 80 69 FF FF FF FF FF FF";
    "00 00 00 00 00 00 00 00 00 00 00 00 00 00 00 00";
    "00 00 00 00 00 00 00 00 00 00 00 00 00 00 00 00";
    "00 01 02 03 04 05 06 07 08 09 0A 0B 0C 0D 0E 0F";
    "00 00 00 00 00 00 FF 07 80 69 FF FF FF FF FF FF" ].

End Expected.

Definition is_PN532Error (e : exn) : bool :=
  match e with PN532Error _ => true | _ => false end.

(** [key_number] and [auth_key] (which the script also names [key]). *)
Definition key_number : Z := MIFARE_CMD_AUTH_A.
Definition auth_key : list Z := [0xFF; 0xFF; 0xFF; 0xFF; 0xFF; 0xFF].

Section Script.
Context {S : Type} (hw : transport S).

(** The loop [for i in range(8): try: ... except nfc.PN532Error ...: break]
    of the script, over the block numbers still to visit; [hatz] is the list
    built so far.  Each block is authenticated, read, and read again; the
    second read is the one formatted and appended. *)
Fixpoint dump_loop (uid : list Z) (blocks : list Z) (hatz : list string)
    : M S (list string) :=
  match blocks with
  | [] => ret hatz
  | i :: blocks' =>
      (step <- try_except
                 (let block_number := i in
                  PN532.mifare_classic_authenticate_block hw uid block_number
                    key_number auth_key ;;
                  block_data <- PN532.mifare_classic_read_block hw block_number ;;
                  again <- PN532.mifare_classic_read_block hw block_number ;;
                  let data := format_block again in
                  ret (Next (hatz ++ [data])))
                 is_PN532Error
                 (ret (Return hatz)) ;;
       match step with
       | Next hatz => dump_loop uid blocks' hatz
       | Return hatz => ret hatz
       end)%py
  end.

End Script.

(** [range(8)]. *)
Definition range8 : list Z := [0; 1; 2; 3; 4; 5; 6; 7].

(** The pin set high at the end of the script: 26 when the dump equals
    [hatzCorect], 19 otherwise. *)
Definition led_pin (hatz : list string) : Z :=
  if bool_decide (hatz = hatzCorect) then 26 else 19.

(** * Properties *)

(** Case analysis on the innermost scrutinee of the goal, repeatedly. *)
Ltac destruct_innermost :=
  repeat match goal with
         | |- context [match ?x with _ => _ end] =>
             lazymatch x with
             | context [match _ with _ => _ end] => fail
             | _ => destruct x eqn:?
             end
         end.

(** ** Byte arithmetic *)

Lemma land_0xFF (x : Z) : Z.land x 0xFF = x mod 256.
Proof. change 0xFF with (Z.ones 8). rewrite Z.land_ones by lia. reflexivity. Qed.

Lemma lnot_eq (x : Z) : Z.lnot x = - x - 1.
Proof. unfold Z.lnot. lia. Qed.

Lemma is_byte_true (b : Z) : is_byte b = true <-> 0 <= b < 256.
Proof. unfold is_byte. rewrite andb_true_iff, Z.leb_le, Z.ltb_lt. reflexivity. Qed.

Lemma is_byte_mod (x : Z) : is_byte (x mod 256) = true.
Proof. apply is_byte_true. apply Z.mod_pos_bound. lia. Qed.

Lemma forallb_bytes_ok (l : list Z) : bytes_ok l -> forallb is_byte l = true.
Proof.
  induction 1 as [|b l Hb _ IH]; simpl; [reflexivity|].
  rewrite IH, andb_true_r. apply is_byte_true, Hb.
Qed.

Lemma sum_app (l1 l2 : list Z) : sum (l1 ++ l2) = sum l1 + sum l2.
Proof. induction l1 as [|x l1 IH]; simpl; [reflexivity|]. unfold sum in *. simpl. lia. Qed.

Lemma sum_insert (l : list Z) (i : nat) (old v : Z) :
  l !! i = Some old -> sum (<[i:=v]> l) = sum l - old + v.
Proof.
  revert i. induction l as [|x l IH]; intros [|i] H; simpl in *; try discriminate.
  - injection H as ->. unfold sum. simpl. lia.
  - specialize (IH _ H). unfold sum in *. simpl. lia.
Qed.

Lemma setitem_ok (l : list Z) (i : nat) (v : Z) :
  (i < length l)%nat -> 0 <= v < 256 -> setitem l i v = Ok (<[i:=v]> l).
Proof.
  intros Hi Hv. unfold setitem. rewrite decide_True by exact Hi.
  apply is_byte_true in Hv. rewrite Hv. reflexivity.
Qed.

Lemma setslice_ok (l : list Z) (lo hi : nat) (vs : list Z) :
  bytes_ok vs -> setslice l lo hi vs = Ok (take lo l ++ vs ++ drop (lo `max` hi) l).
Proof. intros H. unfold setslice. rewrite forallb_bytes_ok by exact H. reflexivity. Qed.

(** ** The frame codec *)

(** Item assignment counted from the end, [arr[-n] = v]. *)
Lemma setitem_tail (body : list Z) (k : nat) (tl : list Z) (v : Z) :
  (k < length tl)%nat -> 0 <= v < 256 ->
  setitem (body ++ tl) (length (body ++ tl) - (length tl - k)) v = Ok (body ++ <[k:=v]> tl).
Proof.
  intros Hk Hv. rewrite length_app.
  rewrite setitem_ok by (try rewrite length_app; lia).
  rewrite insert_app_r_alt by lia. do 3 f_equal. lia.
Qed.

(** The frame laid out: preamble, start code, length, length checksum,
    data, data checksum, postamble. *)
Lemma frame_bytes_layout (data : list Z) :
  bytes_ok data -> (1 < length data < 255)%nat ->
  PN532.frame_bytes data =
    Ok ([0x00; 0x00; 0xFF; Z.of_nat (length data); 256 - Z.of_nat (length data)]
          ++ data ++ [(- sum data) mod 256; 0x00]).
Proof.
  intros Hbytes Hlen. unfold PN532.frame_bytes, assert.
  rewrite bool_decide_eq_true_2 by exact Hlen. cbn [rbind].
  unfold bytearray.
  replace (length data + 7)%nat with (5 + (length data + 2))%nat by lia.
  cbn [replicate Nat.add].
  rewrite !land_0xFF, !lnot_eq.
  repeat (rewrite setitem_ok;
    [ cbn [rbind]; cbn -[Z.of_nat sum replicate Z.modulo Z.sub Z.opp Z.add]
    | cbn [length]; lia
    | first [ unfold _PREAMBLE, _STARTCODE1, _STARTCODE2; lia
            | apply Z.mod_pos_bound; lia ] ]).
  rewrite setslice_ok by exact Hbytes. cbn [rbind].
  rewrite length_replicate.
  replace (5 `max` S (S (S (length data + 2))))%nat with (5 + length data)%nat by lia.
  cbn [take drop Nat.add]. rewrite drop_replicate.
  replace (length data + 2 - length data)%nat with 2%nat by lia.
  cbn [replicate].
  change (?a :: ?b :: ?c :: ?d :: ?e :: data ++ ?t) with ([a; b; c; d; e] ++ data ++ t).
  rewrite (app_assoc _ data).
  rewrite !land_0xFF, !lnot_eq.
  pose proof (setitem_tail ([_PREAMBLE; _STARTCODE1; _STARTCODE2;
     Z.of_nat (length data) `mod` 256; (- Z.of_nat (length data) - 1 + 1) `mod` 256] ++ data) 0 [0; 0]) as H0.
  cbn [length Nat.sub] in H0. rewrite H0 by (try apply Z.mod_pos_bound; cbn; lia).
  cbn [rbind list_insert insert].
  clear H0.
  match goal with |- context [setitem (?b ++ ?t) _ _POSTAMBLE] =>
    pose proof (setitem_tail b 1 t _POSTAMBLE) as H1 end.
  cbn [length Nat.sub] in H1. rewrite H1 by (unfold _POSTAMBLE; cbn; lia).
  cbn [rbind list_insert insert]. clear H1.
  rewrite <- app_assoc. cbn [app]. unfold _PREAMBLE, _STARTCODE1, _STARTCODE2, _POSTAMBLE.
  rewrite (Z.mod_small (Z.of_nat (length data))) by lia.
  replace ((- Z.of_nat (length data) - 1 + 1) `mod` 256) with (256 - Z.of_nat (length data)).
  2:{ replace (- Z.of_nat (length data) - 1 + 1)
        with (256 - Z.of_nat (length data) + (-1) * 256) by lia.
      rewrite Z_mod_plus_full. symmetry. apply Z.mod_small. lia. }
  replace ((- (sum [0; 0; 255] + sum data) - 1) `mod` 256) with ((- sum data) `mod` 256).
  2:{ unfold sum at 2. cbn [foldr].
      replace (- (0 + (0 + (255 + 0)) + sum data) - 1) with (- sum data + (-1) * 256) by lia.
      symmetry. apply Z_mod_plus_full. }
  reflexivity.
Qed.

(** [_read_frame]'s parsing on a buffer that starts with the usual
    preamble and start code. *)
Lemma parse_frame_framed (frame_len lcs : Z) (body : list Z) :
  PN532.parse_frame (0x00 :: 0x00 :: 0xFF :: frame_len :: lcs :: body) =
    if bool_decide (Z.land (frame_len + lcs) 0xFF ≠ 0)
    then Raise (RuntimeError "Response length checksum did not match length!" [])
    else
      let checksum := Z.land (sum (take (Z.to_nat frame_len + 1) body)) 0xFF in
      if bool_decide (checksum ≠ 0)
      then Raise (RuntimeError "Response checksum did not match expected value: " [checksum])
      else Ok (take (Z.to_nat frame_len) body).
Proof.
  unfold PN532.parse_frame. cbn [PN532.swallow_zeros].
  rewrite !decide_True by reflexivity. cbn [Nat.add].
  rewrite decide_False by discriminate. cbn [rbind getitem lookup list_lookup].
  rewrite (bool_decide_eq_false_2 (255 ≠ 255)) by (intros H; apply H; reflexivity).
  rewrite bool_decide_eq_false_2 by (cbn [length]; lia).
  unfold raise_if at 1 2. unfold getslice.
  cbn [getitem rbind Nat.add Nat.sub lookup list_lookup drop].
  rewrite !Nat.sub_0_r. change (drop 0 body) with body.
  destruct (bool_decide (Z.land (frame_len + lcs) 255 ≠ 0)); [reflexivity|].
  cbn [raise_if rbind].
  destruct (bool_decide (Z.land (sum (take (Z.to_nat frame_len + 1) body)) 255 ≠ 0));
    reflexivity.
Qed.

(** A frame with the right length checksum and data checksum parses to its
    data, whatever follows the data checksum. *)
Lemma parse_frame_payload (p tl : list Z) :
  PN532.parse_frame
    (0 :: 0 :: 255 :: Z.of_nat (length p) :: 256 - Z.of_nat (length p)
       :: p ++ (- sum p) mod 256 :: tl) = Ok p.
Proof.
  rewrite parse_frame_framed, land_0xFF.
  replace (Z.of_nat (length p) + (256 - Z.of_nat (length p))) with 256 by lia.
  rewrite bool_decide_eq_false_2 by (intros H; apply H; reflexivity).
  cbn zeta. rewrite Nat2Z.id.
  replace (take (length p + 1) (p ++ (- sum p) `mod` 256 :: tl))
    with (p ++ [(- sum p) `mod` 256]).
  2:{ rewrite take_app_ge by lia. replace (length p + 1 - length p)%nat with 1%nat by lia.
      reflexivity. }
  assert (Hs : Z.land (sum (p ++ [(- sum p) `mod` 256])) 255 = 0).
  { rewrite land_0xFF, sum_app. unfold sum at 2. cbn [foldr].
    rewrite Z.add_0_r, Zplus_mod_idemp_r, Z.add_opp_diag_r. reflexivity. }
  rewrite Hs.
  rewrite bool_decide_eq_false_2 by (intros H; apply H; reflexivity).
  rewrite take_app_length. reflexivity.
Qed.

(** Parsing the frame built from [data] gives [data] back. *)
Lemma parse_frame_of_frame_bytes (data frame : list Z) :
  bytes_ok data -> (1 < length data < 255)%nat ->
  PN532.frame_bytes data = Ok frame ->
  length frame = (length data + 7)%nat /\ PN532.parse_frame frame = Ok data.
Proof.
  intros Hb Hl. rewrite frame_bytes_layout by assumption. intros [= <-]. split.
  - cbn [app length]. rewrite length_app. cbn [length]. lia.
  - apply parse_frame_payload.
Qed.

(** [_read_frame] is one read of [length + 7] bytes followed by the parsing
    of what was read. *)
Lemma read_frame_run {S} (hw : transport S) (length : nat) (w : world S)
    (response : list Z) (d' : S) :
  _read_data hw (length + 7) (dev w) = (Ok response, d') ->
  PN532._read_frame hw length w =
    (PN532.parse_frame response, World d' (trace w ++ [EvRead (length + 7)])).
Proof.
  intros H. unfold PN532._read_frame, bind, call, lift. rewrite H.
  destruct (PN532.parse_frame response); reflexivity.
Qed.

(** [_write_frame] hands the frame it built to [_write_data]. *)
Lemma write_frame_run {S} (hw : transport S) (data frame : list Z) (w : world S) :
  PN532.frame_bytes data = Ok frame ->
  PN532._write_frame hw data w =
    ((_write_data hw frame (dev w)).1,
     World (_write_data hw frame (dev w)).2 (trace w ++ [EvWrite frame])).
Proof.
  intros H. unfold PN532._write_frame, bind, call, lift. rewrite H.
  destruct (_write_data hw frame (dev w)) as [r d]. reflexivity.
Qed.

(** C1.  Round trip: for every payload [p] of bytes with
    [1 < len(p) < 255], writing [p] with [_write_frame] on a wire and reading
    it back with [_read_frame(len(p))] succeeds and returns exactly [p]. *)
Theorem C1_encode_decode_roundtrip (p : list Z) :
  bytes_ok p -> (1 < length p < 255)%nat ->
  ((PN532._write_frame loopback p ;; PN532._read_frame loopback (length p))%py
     (World [] [])).1 = Ok p.
Proof.
  intros Hb Hl.
  destruct (PN532.frame_bytes p) as [frame|e] eqn:Hf.
  2:{ rewrite frame_bytes_layout in Hf by assumption. discriminate. }
  destruct (parse_frame_of_frame_bytes p frame Hb Hl Hf) as [Hlen Hparse].
  unfold bind. rewrite (write_frame_run _ _ _ _ Hf).
  cbn [loopback _write_data fst snd dev trace app].
  rewrite (read_frame_run loopback (length p) _ frame []).
  - exact Hparse.
  - cbn [loopback _read_data dev]. rewrite <- Hlen, take_ge, drop_ge by lia. reflexivity.
Qed.

(** C1 at the payload D4 02 (the GetFirmwareVersion command). *)
Lemma C1_witness :
  ((PN532._write_frame loopback [0xD4; 0x02] ;; PN532._read_frame loopback 2)%py
     (World [] [])).1 = Ok [0xD4; 0x02].
Proof.
  apply (C1_encode_decode_roundtrip [0xD4; 0x02]).
  - repeat constructor; lia.
  - simpl; lia.
Defined.

(** C3, as the code has it.  For every payload [p] of bytes with
    [1 < len(p) < 255] the byte [_write_frame] stores second-to-last in the
    frame is [~checksum & 0xFF] where [checksum] is the sum of the three
    framing-prefix bytes plus the sum of the payload bytes: the one's
    complement low byte of that sum, [255 - ((0x00 + 0x00 + 0xFF + sum(p))
    mod 256)], which is the two's complement low byte of the payload sum
    alone, [(256 - sum(p) mod 256) mod 256]. *)
Theorem C3_checksum_byte (p : list Z) :
  bytes_ok p -> (1 < length p < 255)%nat ->
  exists frame,
    PN532.frame_bytes p = Ok frame /\
    frame !! (length frame - 2)%nat =
      Some (Z.land (Z.lnot (0x00 + 0x00 + 0xFF + sum p)) 0xFF) /\
    Z.land (Z.lnot (0x00 + 0x00 + 0xFF + sum p)) 0xFF
      = 255 - (0x00 + 0x00 + 0xFF + sum p) mod 256 /\
    Z.land (Z.lnot (0x00 + 0x00 + 0xFF + sum p)) 0xFF
      = (256 - sum p mod 256) mod 256.
Proof.
  intros Hb Hl. eexists. split; [apply frame_bytes_layout; assumption|].
  assert (E : Z.land (Z.lnot (0x00 + 0x00 + 0xFF + sum p)) 0xFF = (- sum p) mod 256).
  { rewrite land_0xFF, lnot_eq.
    replace (- (0 + 0 + 255 + sum p) - 1) with (- sum p + (-1) * 256) by lia.
    apply Z_mod_plus_full. }
  rewrite E. split; [|split].
  - change ([0; 0; 255; Z.of_nat (length p); 256 - Z.of_nat (length p)] ++ p ++
            [(- sum p) `mod` 256; 0])
      with ([0; 0; 255; Z.of_nat (length p); 256 - Z.of_nat (length p)] ++ p ++
            (- sum p) `mod` 256 :: [0]).
    rewrite app_assoc. apply list_lookup_middle.
    rewrite !length_app. cbn [length]. lia.
  - Z.div_mod_to_equations. lia.
  - Z.div_mod_to_equations. lia.
Qed.

(** C3's statement at the payload D4 02: the checksum byte is 0x2A. *)
Lemma C3_witness :
  exists frame,
    PN532.frame_bytes [0xD4; 0x02] = Ok frame /\
    frame !! (length frame - 2)%nat = Some 0x2A.
Proof.
  destruct (C3_checksum_byte [0xD4; 0x02]) as (frame & Hf & Hc & _).
  - repeat constructor; lia.
  - simpl; lia.
  - exists frame. split; [exact Hf|exact Hc].
Defined.

(** C3 as stated fails: the frame for the payload D4 02 carries the checksum
    byte 0x2A, while the two's complement of prefix sum plus payload sum,
    [(256 - ((0x00 + 0x00 + 0xFF + 0xD6) mod 256)) mod 256], is 0x2B. *)
Lemma C3_counterexample :
  ~ (forall p frame, bytes_ok p -> (1 < length p < 255)%nat ->
       PN532.frame_bytes p = Ok frame ->
       frame !! (length frame - 2)%nat =
         Some ((256 - ((0x00 + 0x00 + 0xFF + sum p) mod 256)) mod 256)).
Proof.
  intros H.
  specialize (H [0xD4; 0x02] [0; 0; 0xFF; 2; 0xFE; 0xD4; 0x02; 0x2A; 0]).
  assert (Hb : bytes_ok [0xD4; 0x02]) by (repeat constructor; lia).
  specialize (H Hb ltac:(simpl; lia) eq_refl).
  vm_compute in H. discriminate H.
Qed.

(** A changed length byte no longer matches the length checksum. *)
Lemma tampered_length (L C v : Z) (body : list Z) :
  0 <= L < 256 -> 0 <= v < 256 -> v <> L -> C = 256 - L ->
  exists e, PN532.parse_frame (0 :: 0 :: 255 :: v :: C :: body) = Raise e /\ checksum_mismatch e.
Proof.
  intros HL Hv Hne ->. rewrite parse_frame_framed. rewrite land_0xFF.
  rewrite bool_decide_eq_true_2.
  - eexists. split; [reflexivity|]. left. reflexivity.
  - Z.div_mod_to_equations. lia.
Qed.

(** A changed length-checksum byte no longer matches the length. *)
Lemma tampered_lcs (L C v : Z) (body : list Z) :
  0 < L < 256 -> 0 <= v < 256 -> v <> C -> C = 256 - L ->
  exists e, PN532.parse_frame (0 :: 0 :: 255 :: L :: v :: body) = Raise e /\ checksum_mismatch e.
Proof.
  intros HL Hv Hne ->. rewrite parse_frame_framed. rewrite land_0xFF.
  rewrite bool_decide_eq_true_2.
  - eexists. split; [reflexivity|]. left. reflexivity.
  - Z.div_mod_to_equations. lia.
Qed.

(** A changed data byte, or a changed data checksum, makes the data sum
    non-zero modulo 256. *)
Lemma tampered_body (p : list Z) (j : nat) (old v : Z) :
  bytes_ok p -> (1 < length p < 255)%nat ->
  (p ++ [(- sum p) mod 256]) !! j = Some old ->
  0 <= v < 256 -> v <> old ->
  exists e,
    PN532.parse_frame
      (0 :: 0 :: 255 :: Z.of_nat (length p) :: 256 - Z.of_nat (length p)
         :: <[j:=v]> (p ++ [(- sum p) mod 256]) ++ [0]) = Raise e /\
    checksum_mismatch e.
Proof.
  intros Hb Hl Hj Hv Hne. rewrite parse_frame_framed. rewrite land_0xFF.
  replace (Z.of_nat (length p) + (256 - Z.of_nat (length p))) with 256 by lia.
  rewrite bool_decide_eq_false_2 by (intros H; apply H; reflexivity).
  cbn zeta. rewrite Nat2Z.id.
  assert (Hlen : length (<[j:=v]> (p ++ [(- sum p) mod 256])) = (length p + 1)%nat).
  { rewrite length_insert, length_app. reflexivity. }
  rewrite <- Hlen, take_app_length.
  assert (Hsum : sum (<[j:=v]> (p ++ [(- sum p) mod 256]))
                 = sum p + (- sum p) mod 256 - old + v).
  { rewrite (sum_insert _ _ _ _ Hj), sum_app. unfold sum at 2. cbn [foldr]. lia. }
  rewrite Hsum.
  assert (Hold : 0 <= old < 256).
  { apply list_elem_of_lookup_2 in Hj. apply elem_of_app in Hj as [Hj|Hj].
    - unfold bytes_ok in Hb. rewrite Forall_forall in Hb. apply Hb, Hj.
    - apply list_elem_of_singleton in Hj as ->. apply Z.mod_pos_bound. lia. }
  rewrite land_0xFF.
  rewrite bool_decide_eq_true_2.
  - eexists. split; [reflexivity|]. right. eexists. reflexivity.
  - Z.div_mod_to_equations. lia.
Qed.

(** Without the [0xFF] start code the scan ends on a byte that is neither
    zero nor [0xFF]. *)
Lemma tampered_marker (L v : Z) (rest : list Z) :
  0 < L < 255 -> v <> 255 ->
  PN532.parse_frame (0 :: 0 :: v :: L :: rest) = Raise preamble_error.
Proof.
  intros HL Hv. unfold PN532.parse_frame. cbn [PN532.swallow_zeros].
  rewrite !decide_True by reflexivity. cbn [Nat.add].
  destruct (decide (v = 0)) as [->|Hv0].
  - rewrite decide_False by lia.
    cbn [rbind getitem lookup list_lookup].
    rewrite bool_decide_eq_true_2 by lia. reflexivity.
  - cbn [rbind getitem lookup list_lookup].
    rewrite bool_decide_eq_true_2 by lia. reflexivity.
Qed.

(** What the parsing does with a frame in which one byte at position [i]
    was changed: the start code, the checked bytes, the postamble. *)
Lemma tampered_frame (p frame : list Z) (i : nat) (old v : Z) :
  bytes_ok p -> (1 < length p < 255)%nat ->
  PN532.frame_bytes p = Ok frame ->
  frame !! i = Some old -> 0 <= v < 256 -> v <> old ->
  (i = 2%nat -> PN532.parse_frame (<[i:=v]> frame) = Raise preamble_error) /\
  ((3 <= i < length p + 6)%nat ->
     exists e, PN532.parse_frame (<[i:=v]> frame) = Raise e /\ checksum_mismatch e) /\
  (i = (length p + 6)%nat -> PN532.parse_frame (<[i:=v]> frame) = Ok p).
Proof.
  intros Hb Hl. rewrite frame_bytes_layout by assumption. intros [= <-] Hold Hv Hne.
  cbn [app] in *. split; [|split].
  - intros ->. cbn in Hold. injection Hold as <-. cbn [insert list_insert].
    apply tampered_marker; lia.
  - intros Hi.
    destruct i as [|[|[|[|[|j]]]]]; try lia.
    + cbn in Hold. injection Hold as <-.
      apply (tampered_length (Z.of_nat (length p))); lia.
    + cbn in Hold. injection Hold as <-.
      apply (tampered_lcs (Z.of_nat (length p)) (256 - Z.of_nat (length p))); lia.
    + change (?l !! S (S (S (S (S j))))) with ((p ++ [(- sum p) `mod` 256; 0]) !! j) in Hold.
      change (<[S (S (S (S (S j)))):=v]> (?a :: ?b :: ?c :: ?d :: ?e :: ?l))
        with (a :: b :: c :: d :: e :: <[j:=v]> l).
      change (p ++ [(- sum p) `mod` 256; 0]) with (p ++ [(- sum p) `mod` 256] ++ [0]) in *.
      rewrite app_assoc in *.
      assert (Hj : (j < length (p ++ [((- sum p) `mod` 256)%Z]))%nat)
        by (rewrite length_app; cbn [length]; lia).
      rewrite insert_app_l by exact Hj.
      rewrite lookup_app_l in Hold by exact Hj.
      apply (tampered_body p j old v); assumption.
  - intros ->.
    replace (length p + 6)%nat with (5 + (length p + 1))%nat by lia.
    cbn [Nat.add].
    change (<[S (S (S (S (S ?j)))):=v]> (?a :: ?b :: ?c :: ?d :: ?e :: ?l))
      with (a :: b :: c :: d :: e :: <[j:=v]> l).
    rewrite insert_app_r_alt by lia.
    replace (length p + 1 - length p)%nat with 1%nat by lia.
    apply parse_frame_payload.
Qed.

(** C5, as the code has it.  Take the frame built for a payload [p] of bytes
    with [1 < len(p) < 255], change the one byte at position [i] to a
    different byte value and let [_read_frame(len(p))] read the result.  For
    every position from the length byte to the data checksum,
    [3 <= i < len(p) + 6], it raises one of the two checksum-mismatch
    errors.  At [i = 2], the [0xFF] start code, it raises the preamble error
    instead, and at [i = len(p) + 6], the postamble, the change goes
    unnoticed and [p] is returned. *)
Theorem C5_single_byte_change {S} (hw : transport S) (p frame : list Z) (i : nat)
    (old v : Z) (w : world S) (d' : S) :
  bytes_ok p -> (1 < length p < 255)%nat ->
  PN532.frame_bytes p = Ok frame ->
  frame !! i = Some old -> 0 <= v < 256 -> v <> old ->
  _read_data hw (length p + 7) (dev w) = (Ok (<[i:=v]> frame), d') ->
  (PN532._read_frame hw (length p) w).2 = World d' (trace w ++ [EvRead (length p + 7)]) /\
  ((3 <= i < length p + 6)%nat ->
     exists e, (PN532._read_frame hw (length p) w).1 = Raise e /\ checksum_mismatch e) /\
  (i = 2%nat -> (PN532._read_frame hw (length p) w).1 = Raise preamble_error) /\
  (i = (length p + 6)%nat -> (PN532._read_frame hw (length p) w).1 = Ok p).
Proof.
  intros Hb Hl Hf Hold Hv Hne Hread.
  rewrite (read_frame_run hw _ _ _ _ Hread). cbn [fst snd].
  destruct (tampered_frame p frame i old v Hb Hl Hf Hold Hv Hne) as (H2 & H3 & H4).
  auto.
Qed.

(** C5's statement for the payload D4 02 with the byte at position 6 changed
    from 02 to 03. *)
Lemma C5_witness :
  exists e,
    (PN532._read_frame scripted 2
       (World (Script [] [] [[0; 0; 0xFF; 2; 0xFE; 0xD4; 0x03; 0x2A; 0]]) [])).1 = Raise e /\
    checksum_mismatch e.
Proof.
  assert (Hb : bytes_ok [0xD4; 0x02]) by (repeat constructor; lia).
  assert (Hl : (1 < length [0xD4; 0x02] < 255)%nat) by (simpl; lia).
  refine (proj1 (proj2 (C5_single_byte_change scripted [0xD4; 0x02]
            [0; 0; 0xFF; 2; 0xFE; 0xD4; 0x02; 0x2A; 0] 6 0x02 0x03
            (World (Script [] [] [[0; 0; 0xFF; 2; 0xFE; 0xD4; 0x03; 0x2A; 0]]) [])
            (Script [] [] []) Hb Hl _ _ _ _ _)) _).
  - vm_compute. reflexivity.
  - reflexivity.
  - lia.
  - lia.
  - reflexivity.
  - simpl. lia.
Defined.

(** C5 as stated fails at two positions outside the preamble padding of the
    frame for the payload D4 02: with the postamble (position 8) changed to
    01, [_read_frame] returns the payload; with the start code (position 2)
    changed to 01, it raises the preamble error, which is not a checksum
    mismatch. *)
Lemma C5_counterexample :
  PN532.frame_bytes [0xD4; 0x02] = Ok [0; 0; 0xFF; 2; 0xFE; 0xD4; 0x02; 0x2A; 0] /\
  <[8%nat:=1]> [0; 0; 0xFF; 2; 0xFE; 0xD4; 0x02; 0x2A; 0]
    = [0; 0; 0xFF; 2; 0xFE; 0xD4; 0x02; 0x2A; 1] /\
  (PN532._read_frame scripted 2
     (World (Script [] [] [[0; 0; 0xFF; 2; 0xFE; 0xD4; 0x02; 0x2A; 1]]) [])).1
    = Ok [0xD4; 0x02] /\
  <[2%nat:=1]> [0; 0; 0xFF; 2; 0xFE; 0xD4; 0x02; 0x2A; 0]
    = [0; 0; 1; 2; 0xFE; 0xD4; 0x02; 0x2A; 0] /\
  (PN532._read_frame scripted 2
     (World (Script [] [] [[0; 0; 1; 2; 0xFE; 0xD4; 0x02; 0x2A; 0]]) [])).1
    = Raise preamble_error /\
  ~ checksum_mismatch preamble_error.
Proof.
  repeat split; try (vm_compute; reflexivity).
  intros [H|[c H]]; discriminate H.
Qed.

(** [classify_check] holds at each of the 256 byte values. *)
Lemma classify_check_all (status : Z) : 0 <= status < 256 -> classify_check status = true.
Proof.
  intros H.
  assert (Hall : forallb (fun n => classify_check (Z.of_nat n)) (seq 0 256) = true)
    by (vm_compute; reflexivity).
  rewrite forallb_forall in Hall.
  specialize (Hall (Z.to_nat status)). rewrite Z2Nat.id in Hall by lia.
  apply Hall. apply in_seq. lia.
Qed.

(** C2, as the code has it.  For every status byte, [PN532Error(status)]
    either is the error object carrying that code and its message from
    [PN532_ERRORS], when the byte is one of the 28 keys of the table, or
    raises [KeyError], when it is one of the other 228 values: the table
    lookup has no fallback for an unmapped byte. *)
Theorem C2_classify_by_table (status : Z) :
  0 <= status < 256 ->
  ((status ∈ enumerated_codes) /\
   exists msg, PN532_ERRORS !! status = Some msg /\
               PN532Error__init__ status = Ok (mkPN532Error status msg)) \/
  ((status ∉ enumerated_codes) /\
   PN532_ERRORS !! status = None /\
   PN532Error__init__ status = Raise (KeyError status)).
Proof.
  intros H. pose proof (classify_check_all status H) as Hc.
  unfold classify_check, PN532Error__init__, dict_getitem in *.
  destruct (PN532_ERRORS !! status) as [msg|]; cbn [rbind] in *.
  - apply andb_true_iff in Hc as [Hin _]. apply bool_decide_eq_true in Hin.
    left. split; [exact Hin|]. exists msg. split; reflexivity.
  - apply andb_true_iff in Hc as [Hin _]. apply bool_decide_eq_true in Hin.
    right. split; [exact Hin|]. split; reflexivity.
Qed.

(** C2's statement at the status byte 0x14 (MIFARE authentication error). *)
Lemma C2_witness :
  exists msg, PN532Error__init__ 0x14 = Ok (mkPN532Error 0x14 msg).
Proof.
  destruct (C2_classify_by_table 0x14) as [(_ & msg & _ & H)|(Hn & _)].
  - lia.
  - exists msg. exact H.
  - exfalso. apply Hn. vm_compute. repeat constructor.
Defined.

(** C2 as stated fails: constructing the error from the status byte 0x08,
    which is not a key of the table, raises [KeyError]. *)
Lemma C2_counterexample :
  ~ (forall status, 0 <= status < 256 -> exists e, PN532Error__init__ status = Ok e).
Proof.
  intros H. destruct (H 0x08 ltac:(lia)) as [e He]. vm_compute in He. discriminate He.
Qed.

(** The scan over leading zeros fails with [IndexError] on the empty buffer
    only; on any other buffer its failure is the preamble error. *)
Lemma swallow_zeros_raises (rest : list Z) (offset : nat) (e : exn) :
  PN532.swallow_zeros rest offset = Raise e ->
  (rest = [] /\ e = IndexError) \/ (rest <> [] /\ e = preamble_error).
Proof.
  revert offset. induction rest as [|b rest IH]; intros offset; cbn [PN532.swallow_zeros].
  - intros [= <-]. left. split; reflexivity.
  - destruct (decide (b = 0)); [|discriminate].
    destruct rest as [|b' rest'].
    + intros [= <-]. right. split; [discriminate|reflexivity].
    + intros H. apply IH in H as [[H _]|[_ ->]]; [discriminate|].
      right. split; [discriminate|reflexivity].
Qed.

(** Every failure of the parsing is one of five: an [IndexError], or one of
    the four [RuntimeError]s the source raises. *)
Lemma parse_frame_raises (response : list Z) (e : exn) :
  PN532.parse_frame response = Raise e ->
  e = IndexError \/ e = preamble_error \/ e = no_data_error \/ checksum_mismatch e.
Proof.
  unfold PN532.parse_frame.
  destruct (PN532.swallow_zeros response 0) as [offset|e0] eqn:Hs; cbn [rbind].
  { unfold getitem, raise_if, rbind.
    repeat match goal with
           | |- context [match ?x with _ => _ end] =>
               lazymatch x with
               | context [match _ with _ => _ end] => fail
               | _ => destruct x eqn:?
               end
           end; intros [= <-]; auto.
    - right. right. right. left. reflexivity.
    - right. right. right. right. eexists. reflexivity. }
  intros [= <-]. apply swallow_zeros_raises in Hs as [[_ ->]|[_ ->]]; auto.
Qed.

(** An empty buffer always ends in the [IndexError]. *)
Lemma parse_frame_empty : PN532.parse_frame [] = Raise IndexError.
Proof. reflexivity. Qed.

(** C4.  [_read_frame] does index past the end of what was read.  When the
    transport returns no bytes, [response[0]] raises [IndexError], whatever
    length was asked for; when the buffer ends right after the length byte
    (here 00 00 FF 06), [response[offset+1]] raises [IndexError].  Neither is
    one of the parse failures the method raises itself. *)
Theorem C4_read_frame_index_error :
  (forall length, (PN532._read_frame scripted length (World (Script [] [] []) [])).1
     = Raise IndexError) /\
  (PN532._read_frame scripted 6 (World (Script [] [] [[0x00; 0x00; 0xFF; 0x06]]) [])).1
     = Raise IndexError.
Proof.
  split; [intros length|]; reflexivity.
Qed.

(** Building a frame never raises [OSError]: inside [call_function]'s [try]
    only the transport can. *)
Lemma frame_bytes_not_OSError (data : list Z) (e : exn) :
  PN532.frame_bytes data = Raise e -> is_OSError e = false.
Proof.
  unfold PN532.frame_bytes, assert, setitem, setslice, rbind.
  destruct_innermost; intros [= <-]; reflexivity.
Qed.

Section Dispatcher.
Context {S : Type} (hw : transport S).

(** C6.  When the frame was written and the device became ready,
    [call_function] reads [len(_ACK) = 6] bytes and compares them with [_ACK];
    if they differ in any way it raises the [RuntimeError] "Did not receive
    expected ACK from PN532!", having made exactly the calls write, wait,
    read 6.  That outcome is not the [None] returned on a readiness
    timeout. *)
Theorem C6_ack_mismatch_is_fatal (command : Z) (response_length : nat)
    (params : option (list Z)) (timeout : timeout_t) (data frame ack : list Z)
    (w : world S) (d1 d2 d3 : S) :
  PN532.command_data command params = Ok data ->
  PN532.frame_bytes data = Ok frame ->
  _write_data hw frame (dev w) = (Ok tt, d1) ->
  _wait_ready hw timeout d1 = (Ok true, d2) ->
  _read_data hw 6 d2 = (Ok ack, d3) ->
  ack <> _ACK ->
  PN532.call_function hw command response_length params timeout w =
    (Raise (RuntimeError "Did not receive expected ACK from PN532!" []),
     World d3 (trace w ++ [EvWrite frame; EvWaitReady timeout; EvRead 6])) /\
  (PN532.call_function hw command response_length params timeout w).1 <> Ok None.
Proof.
  intros Hdata Hframe Hwrite Hready Hread Hack.
  assert (PN532.call_function hw command response_length params timeout w =
    (Raise (RuntimeError "Did not receive expected ACK from PN532!" []),
     World d3 (trace w ++ [EvWrite frame; EvWaitReady timeout; EvRead 6]))) as E.
  { unfold PN532.call_function, bind, lift, try_except, PN532._write_frame, call, ret, raise.
    rewrite Hdata. unfold bind, lift, call. rewrite Hframe, Hwrite.
    cbn [dev trace]. rewrite Hready. cbn [negb dev trace length _ACK].
    rewrite Hread.
    rewrite bool_decide_eq_false_2 by congruence. cbn [negb].
    rewrite <- !app_assoc. reflexivity. }
  split; [exact E|]. rewrite E. discriminate.
Qed.

(** C7.  When [_write_data] raises [OSError] on the outgoing frame (and the
    wake-up itself returns), [call_function] returns [None]; the calls it made
    are exactly the write and one [_wakeup]: nothing is retried. *)
Theorem C7_write_failure_wakes_once (command : Z) (response_length : nat)
    (params : option (list Z)) (timeout : timeout_t) (data frame : list Z)
    (w : world S) (d1 d2 : S) :
  PN532.command_data command params = Ok data ->
  PN532.frame_bytes data = Ok frame ->
  _write_data hw frame (dev w) = (Raise OSError, d1) ->
  _wakeup hw d1 = (Ok tt, d2) ->
  PN532.call_function hw command response_length params timeout w =
    (Ok None, World d2 (trace w ++ [EvWrite frame; EvWakeup])).
Proof.
  intros Hdata Hframe Hwrite Hwake.
  unfold PN532.call_function, bind, lift, try_except, PN532._write_frame, call, ret, raise.
  rewrite Hdata. unfold bind, lift, call. rewrite Hframe, Hwrite.
  cbn [is_OSError dev trace]. rewrite Hwake.
  rewrite <- !app_assoc. reflexivity.
Qed.

(** A readiness timeout after the write gives [None]. *)
Lemma call_function_not_ready (command : Z) (response_length : nat)
    (params : option (list Z)) (timeout : timeout_t) (data frame : list Z)
    (w : world S) (d1 d2 : S) :
  PN532.command_data command params = Ok data ->
  PN532.frame_bytes data = Ok frame ->
  _write_data hw frame (dev w) = (Ok tt, d1) ->
  _wait_ready hw timeout d1 = (Ok false, d2) ->
  PN532.call_function hw command response_length params timeout w =
    (Ok None, World d2 (trace w ++ [EvWrite frame; EvWaitReady timeout])).
Proof.
  intros Hdata Hframe Hwrite Hready.
  unfold PN532.call_function, bind, lift, try_except, PN532._write_frame, call, ret, raise.
  rewrite Hdata. unfold bind, lift, call. rewrite Hframe, Hwrite.
  cbn [dev trace]. rewrite Hready. cbn [negb].
  rewrite <- !app_assoc. reflexivity.
Qed.

(** X11.  In every invocation [call_function] writes at most one frame, and sends
    a wake-up at most once and only after a write. *)
Lemma call_function_no_retry (command : Z) (response_length : nat)
    (params : option (list Z)) (timeout : timeout_t) (w : world S) :
  exists evs,
    trace (PN532.call_function hw command response_length params timeout w).2
      = trace w ++ evs /\
    (length (List.filter is_write evs) <= 1)%nat /\
    (length (List.filter is_wakeup evs) <= length (List.filter is_write evs))%nat.
Proof.
  unfold PN532.call_function, PN532._read_frame, PN532._write_frame,
    bind, lift, try_except, call, ret, raise.
  destruct_innermost;
    try match goal with
        | Hf : PN532.frame_bytes _ = Raise ?e, Ho : is_OSError ?e = true |- _ =>
            rewrite (frame_bytes_not_OSError _ _ Hf) in Ho; discriminate Ho
        end;
    cbn [snd trace]; rewrite <- ?app_assoc;
    first [ solve [eexists; split; [reflexivity|]; cbn; lia]
          | solve [exists []; rewrite app_nil_r; split; [reflexivity|]; cbn; lia] ].
Qed.
(** C8.  Given what [call_function] returns for InListPassiveTarget:
    on [None], [read_passive_target] returns [None]; on a response whose byte
    0 is not 1 or whose byte 5 exceeds 7 it raises a [RuntimeError] and so
    returns no UID; on a response with byte 0 equal to 1 and byte 5 at most 7
    it returns [response[6:6+response[5]]]. *)
Theorem C8_read_passive_target (card_baud : Z) (timeout : timeout_t)
    (w w' : world S) (answer : option (list Z)) :
  PN532.call_function hw _COMMAND_INLISTPASSIVETARGET 19 (Some [0x01; card_baud]) timeout w
    = (Ok answer, w') ->
  (answer = None ->
     PN532.read_passive_target hw card_baud timeout w = (Ok None, w')) /\
  (forall response, answer = Some response ->
     (exists b0, response !! 0%nat = Some b0 /\ b0 <> 1) \/
     (exists b5, response !! 5%nat = Some b5 /\ b5 > 7) ->
     exists msg,
       PN532.read_passive_target hw card_baud timeout w = (Raise (RuntimeError msg []), w')) /\
  (forall response b5, answer = Some response ->
     response !! 0%nat = Some 1 -> response !! 5%nat = Some b5 -> b5 <= 7 ->
     PN532.read_passive_target hw card_baud timeout w
       = (Ok (Some (getslice response 6 (6 + Z.to_nat b5))), w')).
Proof.
  intros Hcall.
  unfold PN532.read_passive_target, bind, try_except, ret, raise, lift.
  rewrite Hcall. split; [|split].
  - intros ->. reflexivity.
  - intros response -> Hbad. unfold getitem.
    destruct (response !! 0%nat) as [b0|] eqn:H0.
    2:{ destruct Hbad as [(b & Hb & _)|(b5 & H5 & _)]; [discriminate|].
        apply lookup_lt_Some in H5. apply lookup_ge_None in H0. lia. }
    destruct (decide (b0 = 1)) as [->|Hne].
    + rewrite bool_decide_eq_false_2 by (intros H; apply H; reflexivity).
      destruct Hbad as [(b & Hb & Hb1)|(b5 & H5 & Hgt)]; [congruence|].
      rewrite H5. rewrite bool_decide_eq_true_2 by exact Hgt. eexists. reflexivity.
    + rewrite bool_decide_eq_true_2 by exact Hne. eexists. reflexivity.
  - intros response b5 -> H0 H5 Hle. unfold getitem. rewrite H0.
    rewrite bool_decide_eq_false_2 by (intros H; apply H; reflexivity).
    rewrite H5. rewrite bool_decide_eq_false_2 by lia. reflexivity.
Qed.

End Dispatcher.

Section Session.
Context {S : Type} (hw : transport S).

(** [get_firmware_version] turns "no response" into a [RuntimeError]. *)
Lemma get_firmware_version_no_response (w w' : world S) :
  PN532.call_function hw _COMMAND_GETFIRMWAREVERSION 4 None (QArith_base.Qmake 1 2) w
    = (Ok None, w') ->
  PN532.get_firmware_version hw w = (Raise (RuntimeError "Failed to detect the PN532" []), w').
Proof.
  intros H. unfold PN532.get_firmware_version, bind, raise. rewrite H. reflexivity.
Qed.

(** The first statement of the constructor. *)
Lemma reset_step_run (reset : option Z) (w0 w : world S) :
  reset_done hw reset w0 w ->
  (match reset with
   | Some pin => if PN532.truthy reset then call (EvReset pin) (_reset hw pin) else ret tt
   | None => ret tt
   end) w0 = (Ok tt, w).
Proof.
  unfold reset_done. destruct reset as [pin|]; cbn [PN532.truthy].
  - destruct (bool_decide (pin <> 0)).
    + intros (d0 & Hr & ->). unfold call. rewrite Hr. reflexivity.
    + intros ->. reflexivity.
  - intros ->. reflexivity.
Qed.

(** C9.  In the constructor, when the first [get_firmware_version] fails
    with a [BusyError] or a [RuntimeError] the failure is swallowed and
    [get_firmware_version] is called again from the state reached: if this
    second call returns, the constructor returns; if it raises, the
    constructor raises the same exception. *)
Theorem C9_second_attempt_decides (reset : option Z) (w0 w w1 : world S) (d : S) (e : exn) :
  reset_done hw reset w0 w ->
  _wakeup hw (dev w) = (Ok tt, d) ->
  PN532.get_firmware_version hw (World d (trace w ++ [EvWakeup])) = (Raise e, w1) ->
  is_BusyError e || is_RuntimeError e = true ->
  (forall version w2,
     PN532.get_firmware_version hw w1 = (Ok version, w2) ->
     PN532.__init__ hw reset w0 = (Ok tt, w2)) /\
  (forall e2 w2,
     PN532.get_firmware_version hw w1 = (Raise e2, w2) ->
     PN532.__init__ hw reset w0 = (Raise e2, w2)).
Proof.
  intros Hreset Hwake Hfirst Htol.
  assert (Hinit : PN532.__init__ hw reset w0 =
            match PN532.get_firmware_version hw w1 with
            | (Ok _, w2) => (Ok tt, w2)
            | (Raise e2, w2) => (Raise e2, w2)
            end).
  { unfold PN532.__init__, bind, try_except.
    rewrite (reset_step_run _ _ _ Hreset). unfold call at 1, ret.
    rewrite Hwake. cbn [dev trace]. rewrite Hfirst, Htol.
    destruct (PN532.get_firmware_version hw w1) as [[v|e2] w2]; reflexivity. }
  split.
  - intros version w2 H2. rewrite Hinit, H2. reflexivity.
  - intros e2 w2 H2. rewrite Hinit, H2. reflexivity.
Qed.

(** X27.  A first attempt that fails with an exception outside [BusyError] and
    [RuntimeError] is not swallowed: the constructor raises it and makes no
    second attempt. *)
Lemma init_first_failure_propagates (reset : option Z) (w0 w w1 : world S) (d : S) (e : exn) :
  reset_done hw reset w0 w ->
  _wakeup hw (dev w) = (Ok tt, d) ->
  PN532.get_firmware_version hw (World d (trace w ++ [EvWakeup])) = (Raise e, w1) ->
  is_BusyError e || is_RuntimeError e = false ->
  PN532.__init__ hw reset w0 = (Raise e, w1).
Proof.
  intros Hreset Hwake Hfirst Htol.
  unfold PN532.__init__, bind, try_except.
  rewrite (reset_step_run _ _ _ Hreset). unfold call at 1, ret.
  rewrite Hwake. cbn [dev trace]. rewrite Hfirst, Htol. reflexivity.
Qed.

(** C10.  When [call_function] returns [None] to
    [mifare_classic_authenticate_block], [mifare_classic_read_block] or
    [mifare_classic_write_block], the operation raises [TypeError] at
    [response[0]]: none of them handles "no response". *)
Theorem C10_block_operations_index_None (w : world S) :
  (forall uid block_number key_number key params w',
     PN532.authenticate_params uid block_number key_number key = Ok params ->
     PN532.call_function hw _COMMAND_INDATAEXCHANGE 1 (Some params) (QArith_base.Qmake 1 1) w
       = (Ok None, w') ->
     PN532.mifare_classic_authenticate_block hw uid block_number key_number key w
       = (Raise TypeError, w')) /\
  (forall block_number w',
     PN532.call_function hw _COMMAND_INDATAEXCHANGE 17
       (Some [0x01; MIFARE_CMD_READ; Z.land block_number 0xFF]) (QArith_base.Qmake 1 1) w
       = (Ok None, w') ->
     PN532.mifare_classic_read_block hw block_number w = (Raise TypeError, w')) /\
  (forall block_number data params w',
     PN532.write_params block_number data = Ok params ->
     PN532.call_function hw _COMMAND_INDATAEXCHANGE 1 (Some params) (QArith_base.Qmake 1 1) w
       = (Ok None, w') ->
     PN532.mifare_classic_write_block hw block_number data w = (Raise TypeError, w')).
Proof.
  split; [|split].
  - intros uid block_number key_number key params w' Hp Hcall.
    unfold PN532.mifare_classic_authenticate_block, bind, lift. rewrite Hp, Hcall. reflexivity.
  - intros block_number w' Hcall.
    unfold PN532.mifare_classic_read_block, bind, lift. rewrite Hcall. reflexivity.
  - intros block_number data params w' Hp Hcall.
    unfold PN532.mifare_classic_write_block, bind, lift. rewrite Hp, Hcall. reflexivity.
Qed.

End Session.

(** ** The statements at concrete scripted devices *)

(** C6 at a device that answers the GetFirmwareVersion frame with an ACK in
    which one bit is flipped (00 00 FF 00 FE 00). *)
Lemma C6_witness :
  PN532.call_function scripted _COMMAND_GETFIRMWAREVERSION 4 None (QArith_base.Qmake 1 2)
    (World (Script [] [true] [[0x00; 0x00; 0xFF; 0x00; 0xFE; 0x00]]) []) =
  (Raise (RuntimeError "Did not receive expected ACK from PN532!" []),
   World (Script [] [] [])
     [EvWrite [0x00; 0x00; 0xFF; 0x02; 0xFE; 0xD4; 0x02; 0x2A; 0x00];
      EvWaitReady (QArith_base.Qmake 1 2); EvRead 6]).
Proof.
  refine (proj1 (C6_ack_mismatch_is_fatal scripted _COMMAND_GETFIRMWAREVERSION 4 None
            (QArith_base.Qmake 1 2) [0xD4; 0x02]
            [0x00; 0x00; 0xFF; 0x02; 0xFE; 0xD4; 0x02; 0x2A; 0x00]
            [0x00; 0x00; 0xFF; 0x00; 0xFE; 0x00]
            (World (Script [] [true] [[0x00; 0x00; 0xFF; 0x00; 0xFE; 0x00]]) [])
            (Script [] [true] [[0x00; 0x00; 0xFF; 0x00; 0xFE; 0x00]])
            (Script [] [] [[0x00; 0x00; 0xFF; 0x00; 0xFE; 0x00]])
            (Script [] [] []) _ _ _ _ _ _)).
  - vm_compute. reflexivity.
  - vm_compute. reflexivity.
  - reflexivity.
  - reflexivity.
  - reflexivity.
  - discriminate.
Defined.

(** C7 at a device whose first write fails with [OSError]. *)
Lemma C7_witness :
  PN532.call_function scripted _COMMAND_GETFIRMWAREVERSION 4 None (QArith_base.Qmake 1 2)
    (World (Script [Raise OSError] [] []) []) =
  (Ok None,
   World (Script [] [] [])
     [EvWrite [0x00; 0x00; 0xFF; 0x02; 0xFE; 0xD4; 0x02; 0x2A; 0x00]; EvWakeup]).
Proof.
  refine (C7_write_failure_wakes_once scripted _COMMAND_GETFIRMWAREVERSION 4 None
            (QArith_base.Qmake 1 2) [0xD4; 0x02]
            [0x00; 0x00; 0xFF; 0x02; 0xFE; 0xD4; 0x02; 0x2A; 0x00]
            (World (Script [Raise OSError] [] []) [])
            (Script [] [] []) (Script [] [] []) _ _ _ _).
  - vm_compute. reflexivity.
  - vm_compute. reflexivity.
  - reflexivity.
  - reflexivity.
Defined.

(** C8 at a device that acknowledges and then reports one card: the UID
    AA BB CC DD is returned. *)
Lemma C8_witness :
  (PN532.read_passive_target scripted _MIFARE_ISO14443A (QArith_base.Qmake 1 1)
     (World (Script [] [true; true] [_ACK; card_answer]) [])).1
  = Ok (Some [0xAA; 0xBB; 0xCC; 0xDD]).
Proof.
  set (w := World (Script [] [true; true] [_ACK; card_answer]) []).
  pose (w' := (PN532.call_function scripted _COMMAND_INLISTPASSIVETARGET 19
                 (Some [0x01; _MIFARE_ISO14443A]) (QArith_base.Qmake 1 1) w).2).
  assert (Hcall : PN532.call_function scripted _COMMAND_INLISTPASSIVETARGET 19
                    (Some [0x01; _MIFARE_ISO14443A]) (QArith_base.Qmake 1 1) w
                  = (Ok (Some [0x01; 0x01; 0x00; 0x04; 0x08; 0x04; 0xAA; 0xBB; 0xCC; 0xDD]), w')).
  { vm_compute. reflexivity. }
  destruct (C8_read_passive_target scripted _MIFARE_ISO14443A (QArith_base.Qmake 1 1)
              w w' _ Hcall) as (_ & _ & Huid).
  rewrite (Huid _ 4 eq_refl eq_refl eq_refl ltac:(lia)). reflexivity.
Defined.

(** C9 at two devices.  The first is not ready at the first poll and answers
    the second attempt: construction succeeds.  The second is never ready:
    the second attempt's error is raised. *)
Lemma C9_witness :
  (PN532.__init__ scripted None
     (World (Script [] [false; true; true] [_ACK; firmware_answer]) [])).1 = Ok tt /\
  exists e2,
    (PN532.__init__ scripted None (World (Script [] [false; false] []) [])).1 = Raise e2.
Proof.
  split.
  - set (w0 := World (Script [] [false; true; true] [_ACK; firmware_answer]) []).
    pose (w1 := (PN532.get_firmware_version scripted
                   (World (dev w0) (trace w0 ++ [EvWakeup]))).2).
    pose (w2 := (PN532.get_firmware_version scripted w1).2).
    destruct (C9_second_attempt_decides scripted None w0 w0 w1 (dev w0)
                (RuntimeError "Failed to detect the PN532" []))
      as [Hok _].
    + reflexivity.
    + reflexivity.
    + vm_compute. reflexivity.
    + reflexivity.
    + rewrite (Hok [0x32; 0x01; 0x06; 0x07] w2); [reflexivity|].
      vm_compute. reflexivity.
  - set (w0 := World (Script [] [false; false] []) []).
    pose (w1 := (PN532.get_firmware_version scripted
                   (World (dev w0) (trace w0 ++ [EvWakeup]))).2).
    pose (w2 := (PN532.get_firmware_version scripted w1).2).
    destruct (C9_second_attempt_decides scripted None w0 w0 w1 (dev w0)
                (RuntimeError "Failed to detect the PN532" []))
      as [_ Hfail].
    + reflexivity.
    + reflexivity.
    + vm_compute. reflexivity.
    + reflexivity.
    + exists (RuntimeError "Failed to detect the PN532" []).
      rewrite (Hfail (RuntimeError "Failed to detect the PN532" []) w2); [reflexivity|].
      vm_compute. reflexivity.
Defined.

(** C10 at a device that is never ready. *)
Lemma C10_witness :
  (PN532.mifare_classic_authenticate_block scripted [0xAA; 0xBB; 0xCC; 0xDD] 4
     MIFARE_CMD_AUTH_A [0xFF; 0xFF; 0xFF; 0xFF; 0xFF; 0xFF] (World (Script [] [] []) [])).1
    = Raise TypeError /\
  (PN532.mifare_classic_read_block scripted 4 (World (Script [] [] []) [])).1
    = Raise TypeError /\
  (PN532.mifare_classic_write_block scripted 4 (replicate 16 0x11)
     (World (Script [] [] []) [])).1 = Raise TypeError.
Proof.
  set (w := World (Script [] [] []) []).
  destruct (C10_block_operations_index_None scripted w) as (Hauth & Hread & Hwrite).
  split; [|split].
  - erewrite Hauth; [reflexivity| |]; vm_compute; reflexivity.
  - erewrite Hread; [reflexivity|]; vm_compute; reflexivity.
  - erewrite Hwrite; [reflexivity| |]; vm_compute; reflexivity.
Defined.

(** * Further properties of the driver *)

(** ** More on the frame codec *)

Lemma swallow_zeros_stops (n : nat) (b : Z) (rest : list Z) (offset : nat) :
  b <> 0 ->
  PN532.swallow_zeros (replicate n 0 ++ b :: rest) offset = Ok (offset + n)%nat.
Proof.
  intros Hb. revert offset. induction n as [|n IH]; intros offset; cbn [replicate app].
  - cbn [PN532.swallow_zeros]. rewrite decide_False by exact Hb. f_equal. lia.
  - cbn [PN532.swallow_zeros]. rewrite decide_True by reflexivity.
    specialize (IH (offset + 1)%nat).
    destruct (replicate n 0 ++ b :: rest) as [|x l] eqn:E.
    { destruct n; discriminate E. }
    rewrite IH. f_equal. lia.
Qed.

Lemma swallow_zeros_all_zero (n : nat) (offset : nat) :
  PN532.swallow_zeros (replicate (S n) 0) offset = Raise preamble_error.
Proof.
  revert offset. induction n as [|n IH]; intros offset.
  - cbn. reflexivity.
  - change (replicate (S (S n)) 0) with (0 :: replicate (S n) 0).
    cbn [PN532.swallow_zeros]. rewrite decide_True by reflexivity.
    change (replicate (S n) 0) with (0 :: replicate n 0) at 1.
    cbv iota. apply IH.
Qed.

(** Every buffer is empty, all zeros, or some zeros followed by a non-zero
    byte. *)
Lemma buffer_shape (response : list Z) :
  response = [] \/
  (exists n, response = replicate (S n) 0) \/
  (exists n b rest, b <> 0 /\ response = replicate n 0 ++ b :: rest).
Proof.
  induction response as [|x l IH]; [left; reflexivity|right].
  destruct (decide (x = 0)) as [->|Hx].
  - destruct IH as [->|[[n ->]|(n & b & rest & Hb & ->)]].
    + left. exists 0%nat. reflexivity.
    + left. exists (S n). reflexivity.
    + right. exists (S n), b, rest. split; [exact Hb|reflexivity].
  - right. exists 0%nat, x, l. split; [exact Hx|reflexivity].
Qed.

Lemma getitem_after_zeros (n j : nat) (l : list Z) :
  getitem (replicate n 0 ++ l) (n + j) = getitem l j.
Proof.
  unfold getitem. rewrite lookup_app_r by (rewrite length_replicate; lia).
  rewrite length_replicate. replace (n + j - n)%nat with j by lia. reflexivity.
Qed.

Lemma getslice_after_zeros (n lo hi : nat) (l : list Z) :
  getslice (replicate n 0 ++ l) (n + lo) (n + hi) = getslice l lo hi.
Proof.
  unfold getslice. rewrite drop_app_ge by (rewrite length_replicate; lia).
  rewrite length_replicate.
  replace (n + lo - n)%nat with lo by lia.
  replace (n + hi - (n + lo))%nat with (hi - lo)%nat by lia. reflexivity.
Qed.

(** The parsing from the first non-zero byte on does not depend on how many
    zero bytes came before it. *)
Lemma parse_frame_after_zeros (n : nat) (b : Z) (rest : list Z) :
  b <> 0 ->
  PN532.parse_frame (replicate n 0 ++ b :: rest) = PN532.parse_frame (b :: rest).
Proof.
  intros Hb. unfold PN532.parse_frame.
  rewrite (swallow_zeros_stops n b rest 0 Hb).
  pose proof (swallow_zeros_stops 0 b rest 0 Hb) as H0.
  cbn [replicate app] in H0. rewrite H0. cbn [rbind Nat.add].
  set (zs := replicate n 0).
  assert (Hz : length zs = n) by apply length_replicate.
  assert (E : forall j, getitem (zs ++ b :: rest) (n + j) = getitem (b :: rest) j)
    by (intros j; apply getitem_after_zeros).
  assert (ES : forall lo hi, getslice (zs ++ b :: rest) (n + lo) (n + hi)
                             = getslice (b :: rest) lo hi)
    by (intros lo hi; apply getslice_after_zeros).
  rewrite <- (E 0%nat), Nat.add_0_r.
  destruct (getitem (zs ++ b :: rest) n) as [b0|e]; cbn [rbind]; [|reflexivity].
  destruct (raise_if (bool_decide (b0 ≠ 255)) _); cbn [rbind]; [|reflexivity].
  replace (bool_decide (length (zs ++ b :: rest) <= n + 1)%nat)
    with (bool_decide (length (b :: rest) <= 1)%nat)
    by (apply bool_decide_ext; rewrite length_app; lia).
  destruct (raise_if (bool_decide (length (b :: rest) <= 1)%nat) _);
    cbn [rbind]; [|reflexivity].
  rewrite (E 1%nat).
  destruct (getitem (b :: rest) 1) as [frame_len|e]; cbn [rbind]; [|reflexivity].
  replace (n + 1 + 1)%nat with (n + 2)%nat by lia. rewrite (E 2%nat).
  destruct (getitem (b :: rest) 2) as [lcs|e]; cbn [rbind]; [|reflexivity].
  destruct (raise_if (bool_decide (Z.land (frame_len + lcs) 255 ≠ 0)) _);
    cbn [rbind]; [|reflexivity].
  replace (n + 1 + 2 + Z.to_nat frame_len + 1)%nat
    with (n + (S (S (S (Z.to_nat frame_len + 1)))))%nat by lia.
  replace (n + 1 + 2 + Z.to_nat frame_len)%nat
    with (n + (S (S (S (Z.to_nat frame_len)))))%nat by lia.
  replace (n + 1 + 2)%nat with (n + 3)%nat by lia.
  rewrite !ES. reflexivity.
Qed.

(** X1.  [_write_frame] refuses data of fewer than 2 or more than 254 bytes
    with the [AssertionError] of its [assert], before anything is handed to
    the transport: the world is unchanged. *)
Theorem write_frame_rejects_bad_length {S} (hw : transport S) (data : list Z) (w : world S) :
  ~ (1 < length data < 255)%nat ->
  PN532._write_frame hw data w
    = (Raise (AssertionError "Data must be array of 1 to 255 bytes."), w).
Proof.
  intros H. unfold PN532._write_frame, bind, lift, PN532.frame_bytes, assert.
  rewrite bool_decide_eq_false_2 by exact H. reflexivity.
Qed.

Lemma write_frame_rejects_bad_length_witness :
  PN532._write_frame scripted [0xD4] (World (Script [] [] []) [])
    = (Raise (AssertionError "Data must be array of 1 to 255 bytes."),
       World (Script [] [] []) []).
Proof.
  apply (write_frame_rejects_bad_length scripted [0xD4]). simpl. lia.
Defined.

(** X2.  The frame built for [data] (bytes, 2 to 254 of them) has
    [len(data) + 7] items, all bytes; it starts with [_FRAME_START], carries
    the length and a length checksum that add up to 0 modulo 256, then the
    data and a checksum that add up to 0 modulo 256, and ends with the
    postamble 0. *)
Theorem frame_bytes_invariants (data : list Z) :
  bytes_ok data -> (1 < length data < 255)%nat ->
  exists frame lcs dcs,
    PN532.frame_bytes data = Ok frame /\
    frame = _FRAME_START ++ [Z.of_nat (length data); lcs] ++ data ++ [dcs; _POSTAMBLE] /\
    length frame = (length data + 7)%nat /\
    bytes_ok frame /\
    (Z.of_nat (length data) + lcs) mod 256 = 0 /\
    (sum data + dcs) mod 256 = 0.
Proof.
  intros Hb Hl.
  exists ([0x00; 0x00; 0xFF; Z.of_nat (length data); 256 - Z.of_nat (length data)]
            ++ data ++ [(- sum data) mod 256; 0x00]),
         (256 - Z.of_nat (length data)), ((- sum data) mod 256).
  split; [apply frame_bytes_layout; assumption|].
  split; [reflexivity|]. split; [|split; [|split]].
  - cbn [app length]. rewrite length_app. cbn [length]. lia.
  - unfold bytes_ok in *. cbn [app]. repeat (apply Forall_cons; split; [lia|]).
    apply Forall_app. split; [exact Hb|].
    repeat (apply Forall_cons; split; [try lia; apply Z.mod_pos_bound; lia|]).
    apply Forall_nil_2.
  - replace (Z.of_nat (length data) + (256 - Z.of_nat (length data))) with 256 by lia.
    reflexivity.
  - rewrite Zplus_mod_idemp_r, Z.add_opp_diag_r. reflexivity.
Qed.

Lemma frame_bytes_invariants_witness :
  exists frame lcs dcs,
    PN532.frame_bytes [0xD4; 0x4A; 0x01; 0x00] = Ok frame /\
    frame = _FRAME_START ++ [4; lcs] ++ [0xD4; 0x4A; 0x01; 0x00] ++ [dcs; _POSTAMBLE] /\
    length frame = 11%nat.
Proof.
  destruct (frame_bytes_invariants [0xD4; 0x4A; 0x01; 0x00])
    as (frame & lcs & dcs & Hf & Hshape & Hlen & _).
  - repeat constructor; lia.
  - simpl; lia.
  - exists frame, lcs, dcs. split; [exact Hf|]. split; [exact Hshape|exact Hlen].
Defined.

(** The two preamble failures. *)
Lemma missing_start_code_shape (n : nat) :
  PN532.parse_frame (replicate (S n) 0) = Raise preamble_error /\
  (forall b rest, b <> 0 -> b <> 0xFF ->
     PN532.parse_frame (replicate n 0 ++ b :: rest) = Raise preamble_error).
Proof.
  split.
  - unfold PN532.parse_frame. rewrite swallow_zeros_all_zero. reflexivity.
  - intros b rest Hb0 Hb. rewrite parse_frame_after_zeros by exact Hb0.
    unfold PN532.parse_frame. cbn [PN532.swallow_zeros].
    rewrite decide_False by exact Hb0. cbn [rbind getitem lookup list_lookup].
    rewrite bool_decide_eq_true_2 by exact Hb. reflexivity.
Qed.

(** X3.  Preamble scanning.  [_read_frame] skips any number of zero
    bytes, none included, in front of the [0xFF] start code: the outcome is
    that of the buffer that starts at the start code.  A buffer of zeros
    only, or one whose first non-zero byte is not [0xFF], fails with the
    preamble error; a buffer that ends with the start code fails with
    "Response contains no data!". *)
Theorem preamble_scanning (n : nat) :
  (forall rest,
     PN532.parse_frame (replicate n 0 ++ 0xFF :: rest) = PN532.parse_frame (0xFF :: rest)) /\
  PN532.parse_frame (replicate (S n) 0) = Raise preamble_error /\
  (forall b rest, b <> 0 -> b <> 0xFF ->
     PN532.parse_frame (replicate n 0 ++ b :: rest) = Raise preamble_error) /\
  PN532.parse_frame (replicate n 0 ++ [0xFF]) = Raise no_data_error.
Proof.
  destruct (missing_start_code_shape n) as [Hz Hb].
  split; [intros rest; apply parse_frame_after_zeros; discriminate|].
  split; [exact Hz|]. split; [exact Hb|].
  rewrite parse_frame_after_zeros by discriminate. reflexivity.
Qed.

Lemma preamble_scanning_witness :
  PN532.parse_frame [0; 0; 0x01; 0xFF; 0x02; 0xFE] = Raise preamble_error.
Proof.
  apply (proj1 (proj2 (proj2 (preamble_scanning 2))) 0x01 [0xFF; 0x02; 0xFE]); discriminate.
Defined.

(** From the start code on, with the length and its checksum present, the
    parsing never raises [IndexError]. *)
Lemma parse_frame_no_IndexError (L C : Z) (body : list Z) :
  PN532.parse_frame (0xFF :: L :: C :: body) <> Raise IndexError.
Proof.
  unfold PN532.parse_frame. cbn [PN532.swallow_zeros].
  rewrite decide_False by discriminate. cbn [rbind getitem lookup list_lookup Nat.add].
  rewrite (bool_decide_eq_false_2 (255 ≠ 255)) by (intros H; apply H; reflexivity).
  rewrite bool_decide_eq_false_2 by (cbn [length]; lia).
  unfold raise_if. cbn [rbind].
  destruct_innermost; discriminate.
Qed.

(** X4.  [_read_frame]'s parsing indexes past the end of the buffer, with
    [IndexError], in exactly two cases: the buffer is empty, or it ends with
    the byte after the start code (the length), so that the length checksum
    is missing. *)
Theorem parse_frame_IndexError_iff (response : list Z) :
  PN532.parse_frame response = Raise IndexError <->
  response = [] \/ exists n L, response = replicate n 0 ++ [0xFF; L].
Proof.
  split.
  - intros H. destruct (buffer_shape response) as [->|[[n ->]|(n & b & rest & Hb & ->)]].
    + left. reflexivity.
    + rewrite (proj1 (missing_start_code_shape n)) in H. discriminate H.
    + right. destruct (decide (b = 0xFF)) as [->|Hff].
      * rewrite parse_frame_after_zeros in H by exact Hb.
        destruct rest as [|L [|C body]].
        -- discriminate H.
        -- exists n, L. reflexivity.
        -- exfalso. exact (parse_frame_no_IndexError L C body H).
      * rewrite (proj2 (missing_start_code_shape n) b rest Hb Hff) in H. discriminate H.
  - intros [->|(n & L & ->)]; [reflexivity|].
    rewrite parse_frame_after_zeros by discriminate. reflexivity.
Qed.

Lemma parse_frame_IndexError_iff_witness :
  PN532.parse_frame [0x00; 0x00; 0xFF; 0x06] = Raise IndexError.
Proof.
  apply (proj2 (parse_frame_IndexError_iff [0x00; 0x00; 0xFF; 0x06])).
  right. exists 2%nat, 0x06. reflexivity.
Defined.

(** ** More on the dispatcher *)

Lemma store_params_bytes (pre params : list Z) (i : nat) :
  bytes_ok params -> length pre = (2 + i)%nat ->
  PN532.store_params (pre ++ replicate (length params) 0) i params = Ok (pre ++ params).
Proof.
  intros Hb. revert pre i. induction Hb as [|val params Hval Hb IH]; intros pre i Hpre.
  - cbn. reflexivity.
  - cbn [PN532.store_params length replicate].
    rewrite setitem_ok by (try rewrite length_app; cbn [length]; lia).
    cbn [rbind]. rewrite <- Hpre. rewrite insert_app_r_alt by lia.
    rewrite Nat.sub_diag. cbn [insert list_insert].
    change (pre ++ val :: ?l) with (pre ++ [val] ++ l). rewrite app_assoc.
    rewrite IH by (rewrite length_app; cbn [length]; lia).
    rewrite <- app_assoc. reflexivity.
Qed.

(** The frame data for a command: the host-to-PN532 marker, the command
    byte, the parameters. *)
Lemma command_data_bytes (command : Z) (params : list Z) :
  bytes_ok params ->
  PN532.command_data command (Some params)
    = Ok (_HOSTTOPN532 :: command mod 256 :: params).
Proof.
  intros Hb. unfold PN532.command_data, bytearray.
  cbn [Nat.add replicate].
  rewrite setitem_ok by (cbn [length]; unfold _HOSTTOPN532; lia).
  cbn [rbind insert list_insert]. rewrite land_0xFF.
  rewrite setitem_ok by (try apply Z.mod_pos_bound; cbn [length]; lia). cbn [rbind].
  cbn [insert list_insert].
  apply (store_params_bytes [_HOSTTOPN532; command mod 256] params 0 Hb). reflexivity.
Qed.

Lemma command_data_None (command : Z) :
  PN532.command_data command None = Ok [_HOSTTOPN532; command mod 256].
Proof.
  unfold PN532.command_data. rewrite land_0xFF. cbn -[Z.modulo].
  unfold setitem. cbn -[Z.modulo]. rewrite is_byte_mod. reflexivity.
Qed.

Section Exchange.
Context {S : Type} (hw : transport S).

(** [call_function] over a complete exchange: the outcome is decided by the
    parsing of the result frame and the check of its two header bytes. *)
Lemma call_function_exchange (command : Z) (response_length : nat)
    (params : option (list Z)) (timeout : timeout_t) (data frame response : list Z)
    (w w' : world S) :
  PN532.command_data command params = Ok data ->
  PN532.frame_bytes data = Ok frame ->
  acked_exchange hw timeout frame (response_length + 2 + 7) response w w' ->
  PN532.call_function hw command response_length params timeout w =
    (rbind (PN532.parse_frame response) (answer_of command), w').
Proof.
  intros Hdata Hframe (d1 & d2 & d3 & d4 & d5 & Hwrite & Hr1 & Hack & Hr2 & Hread & ->).
  unfold PN532.call_function, PN532._read_frame, bind, lift, try_except,
    PN532._write_frame, call, ret, raise.
  rewrite Hdata. unfold bind, lift, call. rewrite Hframe, Hwrite.
  cbn [dev trace]. rewrite Hr1. cbn [negb dev trace]. rewrite Hack.
  rewrite bool_decide_eq_true_2 by reflexivity. cbn [negb dev trace].
  rewrite Hr2. cbn [negb dev trace]. rewrite Hread.
  rewrite <- !app_assoc. cbn [app].
  destruct (PN532.parse_frame response) as [payload|e]; cbn [rbind]; [|reflexivity].
  unfold answer_of, getitem.
  destruct payload as [|r0 [|r1 result]]; cbn [lookup list_lookup]; try reflexivity.
  - destruct (bool_decide (r0 = _PN532TOHOST)); reflexivity.
  - destruct (bool_decide (r0 = _PN532TOHOST)); [|reflexivity].
    destruct (bool_decide (r1 = command + 1)); reflexivity.
Qed.

End Exchange.

Lemma getslice_bytes_ok (l : list Z) (lo hi : nat) : bytes_ok l -> bytes_ok (getslice l lo hi).
Proof. intros H. unfold getslice, bytes_ok in *. apply Forall_take, Forall_drop, H. Qed.

(** A parsed payload is a slice of the buffer. *)
Lemma parse_frame_bytes_ok (response payload : list Z) :
  bytes_ok response -> PN532.parse_frame response = Ok payload -> bytes_ok payload.
Proof.
  intros Hb. unfold PN532.parse_frame, raise_if, rbind.
  destruct_innermost; intros [= <-]. apply getslice_bytes_ok, Hb.
Qed.

Lemma store_params_ValueError (data params : list Z) (i : nat) :
  ~ bytes_ok params -> (2 + i + length params <= length data)%nat ->
  PN532.store_params data i params = Raise ValueError.
Proof.
  revert data i. induction params as [|val params IH]; intros data i Hnb Hlen.
  - exfalso. apply Hnb. constructor.
  - cbn [PN532.store_params]. cbn [length] in Hlen. unfold setitem.
    rewrite decide_True by lia.
    destruct (is_byte val) eqn:Hv; [|reflexivity]. cbn [rbind].
    apply IH.
    + intros Hp. apply Hnb. constructor; [apply is_byte_true, Hv|exact Hp].
    + rewrite length_insert. lia.
Qed.

Section Dispatch.
Context {S : Type} (hw : transport S).

(** X5.  Data that cannot be framed never reaches the transport.  With 253
    or more parameter bytes [call_function] raises the [AssertionError] of
    [_write_frame] (it is not an [OSError], so there is no wake-up); with a
    parameter that is not a byte it raises [ValueError].  In both cases the
    world is unchanged. *)
Theorem call_function_rejects_params (command : Z) (response_length : nat)
    (params : list Z) (timeout : timeout_t) (w : world S) :
  (bytes_ok params -> (253 <= length params)%nat ->
   PN532.call_function hw command response_length (Some params) timeout w
     = (Raise (AssertionError "Data must be array of 1 to 255 bytes."), w)) /\
  (~ bytes_ok params ->
   PN532.call_function hw command response_length (Some params) timeout w
     = (Raise ValueError, w)).
Proof.
  split.
  - intros Hb Hlen.
    unfold PN532.call_function, bind, lift, try_except, PN532._write_frame.
    rewrite command_data_bytes by exact Hb. unfold bind, lift, PN532.frame_bytes, assert.
    rewrite bool_decide_eq_false_2 by (cbn [length]; lia). reflexivity.
  - intros Hnb. unfold PN532.call_function, bind, lift, PN532.command_data.
    unfold bytearray. cbn [Nat.add replicate].
    rewrite setitem_ok by (cbn [length]; unfold _HOSTTOPN532; lia).
    cbn [rbind insert list_insert]. rewrite land_0xFF.
    rewrite setitem_ok by (try apply Z.mod_pos_bound; cbn [length]; lia).
    cbn [rbind insert list_insert].
    rewrite store_params_ValueError; [reflexivity|exact Hnb|].
    cbn [length]. rewrite length_replicate. lia.
Qed.

End Dispatch.

Lemma call_function_rejects_params_witness :
  PN532.call_function scripted _COMMAND_INDATAEXCHANGE 1 (Some (replicate 253 0x00))
    (QArith_base.Qmake 1 1) (World (Script [] [] []) [])
    = (Raise (AssertionError "Data must be array of 1 to 255 bytes."),
       World (Script [] [] []) []) /\
  PN532.call_function scripted _COMMAND_INDATAEXCHANGE 1 (Some [0x01; 0x100])
    (QArith_base.Qmake 1 1) (World (Script [] [] []) [])
    = (Raise ValueError, World (Script [] [] []) []).
Proof.
  split.
  - apply (proj1 (call_function_rejects_params scripted _COMMAND_INDATAEXCHANGE 1
             (replicate 253 0x00) (QArith_base.Qmake 1 1) (World (Script [] [] []) []))).
    + apply Forall_replicate. lia.
    + rewrite length_replicate. lia.
  - apply (proj2 (call_function_rejects_params scripted _COMMAND_INDATAEXCHANGE 1
             [0x01; 0x100] (QArith_base.Qmake 1 1) (World (Script [] [] []) []))).
    intros H. inversion H as [|? ? _ H2]. inversion H2 as [|? ? H3 _]. lia.
Defined.

(** The frame for a command and its parameters exists when there are fewer
    than 253 parameter bytes. *)
Lemma command_frame_exists (command : Z) (params : list Z) :
  bytes_ok params -> (length params < 253)%nat ->
  exists frame,
    PN532.frame_bytes (_HOSTTOPN532 :: command mod 256 :: params) = Ok frame /\
    PN532.parse_frame frame = Ok (_HOSTTOPN532 :: command mod 256 :: params).
Proof.
  intros Hb Hl.
  assert (Hd : bytes_ok (_HOSTTOPN532 :: command mod 256 :: params)).
  { repeat (apply Forall_cons; split); [unfold _HOSTTOPN532; lia| |exact Hb].
    apply Z.mod_pos_bound. lia. }
  assert (Hlen : (1 < length (_HOSTTOPN532 :: (command mod 256)%Z :: params) < 255)%nat)
    by (cbn [length]; lia).
  destruct (PN532.frame_bytes (_HOSTTOPN532 :: command mod 256 :: params)) as [frame|e] eqn:Hf.
  - exists frame. split; [reflexivity|].
    apply (parse_frame_of_frame_bytes _ _ Hd Hlen Hf).
  - rewrite frame_bytes_layout in Hf by assumption. discriminate Hf.
Qed.

Section Dispatch2.
Context {S : Type} (hw : transport S).

(** The first call [call_function] makes to the transport is the write of
    the command frame. *)
Lemma call_function_first_write (command : Z) (response_length : nat)
    (params : list Z) (timeout : timeout_t) (w : world S) :
  bytes_ok params -> (length params < 253)%nat ->
  exists frame,
    trace (PN532.call_function hw command response_length (Some params) timeout w).2
      !! length (trace w) = Some (EvWrite frame) /\
    PN532.parse_frame frame = Ok (_HOSTTOPN532 :: command mod 256 :: params).
Proof.
  intros Hb Hl. destruct (command_frame_exists command params Hb Hl) as (frame & Hf & Hp).
  exists frame. split; [|exact Hp].
  unfold PN532.call_function, PN532._read_frame, PN532._write_frame,
    bind, lift, try_except, call, ret, raise.
  rewrite command_data_bytes by exact Hb. unfold bind, lift, call. rewrite Hf.
  destruct_innermost; cbn [snd trace]; rewrite <- ?app_assoc;
    apply list_lookup_middle; reflexivity.
Qed.

(** X6.  What [call_function] sends.  For any command and fewer than 253
    parameter bytes, the first call it makes to the transport, whatever the
    transport then does, is the write of one frame, and that frame parses
    back to the marker 0xD4, the command modulo 256 and the parameters. *)
Theorem call_function_sends_command (command : Z) (response_length : nat)
    (params : list Z) (timeout : timeout_t) (w : world S) :
  bytes_ok params -> (length params < 253)%nat ->
  exists frame,
    trace (PN532.call_function hw command response_length (Some params) timeout w).2
      !! length (trace w) = Some (EvWrite frame) /\
    PN532.parse_frame frame = Ok (0xD4 :: command mod 256 :: params).
Proof. apply call_function_first_write. Qed.

(** X7.  The complete handshake.  When the device takes the command frame,
    acknowledges it and answers with the frame of the payload
    [0xD5, command + 1, result...], [call_function] returns [result], after
    exactly five transport calls: write, wait, read 6, wait, read
    [response_length + 2 + 7]. *)
Theorem call_function_returns_result (command : Z) (response_length : nat)
    (params : option (list Z)) (timeout : timeout_t)
    (data frame result response : list Z) (w w' : world S) :
  PN532.command_data command params = Ok data ->
  PN532.frame_bytes data = Ok frame ->
  bytes_ok result -> (length result < 253)%nat -> 0 <= command < 255 ->
  PN532.frame_bytes (_PN532TOHOST :: command + 1 :: result) = Ok response ->
  acked_exchange hw timeout frame (response_length + 2 + 7) response w w' ->
  PN532.call_function hw command response_length params timeout w = (Ok (Some result), w') /\
  trace w' = trace w ++ [EvWrite frame; EvWaitReady timeout; EvRead 6;
                         EvWaitReady timeout; EvRead (response_length + 2 + 7)].
Proof.
  intros Hdata Hframe Hb Hl Hc Hresp Hex.
  rewrite (call_function_exchange hw _ _ _ _ _ _ _ _ _ Hdata Hframe Hex).
  assert (Hp : bytes_ok (_PN532TOHOST :: command + 1 :: result)).
  { repeat (apply Forall_cons; split); [unfold _PN532TOHOST; lia|lia|exact Hb]. }
  destruct (parse_frame_of_frame_bytes _ _ Hp ltac:(cbn [length]; lia) Hresp) as [_ ->].
  cbn [rbind answer_of]. rewrite !bool_decide_eq_true_2 by reflexivity.
  split; [reflexivity|].
  destruct Hex as (d1 & d2 & d3 & d4 & d5 & _ & _ & _ & _ & _ & ->). reflexivity.
Qed.

(** X8.  An answer to another command is refused.  When the result frame
    carries a well-formed payload whose first byte is not 0xD5 or whose
    second byte is not [command + 1], [call_function] raises "Received
    unexpected command response!". *)
Theorem call_function_refuses_other_answer (command : Z) (response_length : nat)
    (params : option (list Z)) (timeout : timeout_t)
    (data frame rest response : list Z) (r0 r1 : Z) (w w' : world S) :
  PN532.command_data command params = Ok data ->
  PN532.frame_bytes data = Ok frame ->
  bytes_ok (r0 :: r1 :: rest) -> (length rest < 253)%nat ->
  PN532.frame_bytes (r0 :: r1 :: rest) = Ok response ->
  acked_exchange hw timeout frame (response_length + 2 + 7) response w w' ->
  r0 <> _PN532TOHOST \/ r1 <> command + 1 ->
  PN532.call_function hw command response_length params timeout w
    = (Raise unexpected_response, w').
Proof.
  intros Hdata Hframe Hb Hl Hresp Hex Hne.
  rewrite (call_function_exchange hw _ _ _ _ _ _ _ _ _ Hdata Hframe Hex).
  destruct (parse_frame_of_frame_bytes _ _ Hb ltac:(cbn [length]; lia) Hresp) as [_ ->].
  cbn [rbind answer_of].
  destruct (decide (r0 = _PN532TOHOST)) as [->|H0].
  - rewrite bool_decide_eq_true_2 by reflexivity.
    destruct Hne as [Hne|Hne]; [congruence|].
    rewrite bool_decide_eq_false_2 by exact Hne. reflexivity.
  - rewrite bool_decide_eq_false_2 by exact H0. reflexivity.
Qed.

(** X9.  A result frame cut off right after its length checksum passes
    the codec as an empty payload, whatever length it declares, and
    [call_function] then fails at [response[0]] with [IndexError], not with
    a [RuntimeError]. *)
Theorem call_function_truncated_result (command : Z) (response_length : nat)
    (params : option (list Z)) (timeout : timeout_t)
    (data frame : list Z) (n : nat) (L C : Z) (w w' : world S) :
  PN532.command_data command params = Ok data ->
  PN532.frame_bytes data = Ok frame ->
  (L + C) mod 256 = 0 ->
  acked_exchange hw timeout frame (response_length + 2 + 7)
    (replicate n 0x00 ++ [0xFF; L; C]) w w' ->
  PN532.parse_frame (replicate n 0x00 ++ [0xFF; L; C]) = Ok [] /\
  PN532.call_function hw command response_length params timeout w = (Raise IndexError, w').
Proof.
  intros Hdata Hframe Hlc Hex.
  assert (Hp : PN532.parse_frame (replicate n 0x00 ++ [0xFF; L; C]) = Ok []).
  { rewrite parse_frame_after_zeros by discriminate.
    unfold PN532.parse_frame. cbn [PN532.swallow_zeros].
    rewrite decide_False by discriminate. cbn [rbind getitem lookup list_lookup Nat.add].
    rewrite (bool_decide_eq_false_2 (255 ≠ 255)) by (intros H; apply H; reflexivity).
    rewrite bool_decide_eq_false_2 by (cbn [length]; lia).
    rewrite land_0xFF, Hlc.
    rewrite bool_decide_eq_false_2 by (intros H; apply H; reflexivity).
    unfold raise_if. cbn [rbind]. unfold getslice. cbn [drop].
    rewrite !take_nil. cbn.  reflexivity. }
  split; [exact Hp|].
  rewrite (call_function_exchange hw _ _ _ _ _ _ _ _ _ Hdata Hframe Hex), Hp. reflexivity.
Qed.

(** The device accepted the command but produces no result in time:
    after the acknowledgment, a second readiness timeout makes
    [call_function] return [None] without reading a result frame. *)
Lemma call_function_result_timeout (command : Z) (response_length : nat)
    (params : option (list Z)) (timeout : timeout_t) (data frame : list Z)
    (w : world S) (d1 d2 d3 d4 : S) :
  PN532.command_data command params = Ok data ->
  PN532.frame_bytes data = Ok frame ->
  _write_data hw frame (dev w) = (Ok tt, d1) ->
  _wait_ready hw timeout d1 = (Ok true, d2) ->
  _read_data hw 6 d2 = (Ok _ACK, d3) ->
  _wait_ready hw timeout d3 = (Ok false, d4) ->
  PN532.call_function hw command response_length params timeout w =
    (Ok None, World d4 (trace w ++ [EvWrite frame; EvWaitReady timeout; EvRead 6;
                                    EvWaitReady timeout])).
Proof.
  intros Hdata Hframe Hwrite Hr1 Hack Hr2.
  unfold PN532.call_function, bind, lift, try_except, PN532._write_frame, call, ret, raise.
  rewrite Hdata. unfold bind, lift, call. rewrite Hframe, Hwrite.
  cbn [dev trace]. rewrite Hr1. cbn [negb dev trace length _ACK]. rewrite Hack.
  rewrite bool_decide_eq_true_2 by reflexivity. cbn [negb dev trace].
  rewrite Hr2. cbn [negb]. rewrite <- !app_assoc. reflexivity.
Qed.

(** X10.  The echo check compares with [command + 1], not with its low
    byte.  So when every read of the transport returns bytes, a command
    outside -1..254 (0xFF, say) never gets a result: [call_function] cannot
    return a payload for it. *)
Theorem call_function_command_range (command : Z) (response_length : nat)
    (params : option (list Z)) (timeout : timeout_t) (result : list Z)
    (w w' : world S) :
  (forall count d response d',
     _read_data hw count d = (Ok response, d') -> bytes_ok response) ->
  PN532.call_function hw command response_length params timeout w = (Ok (Some result), w') ->
  -1 <= command <= 254.
Proof.
  intros Hbytes.
  unfold PN532.call_function, PN532._read_frame, PN532._write_frame,
    bind, lift, try_except, call, ret, raise.
  destruct_innermost; intros [= <- <-]; subst;
  try match goal with
  | Hr : _read_data hw (_ + 2 + 7) _ = (Ok ?resp, _),
    Hp : PN532.parse_frame ?resp = Ok ?p,
    H1 : getitem ?p 1 = Ok ?r1,
    Hd : negb (bool_decide (?r1 = command + 1)) = false |- _ =>
      apply Hbytes in Hr; pose proof (parse_frame_bytes_ok _ _ Hr Hp) as Hpb;
      apply negb_false_iff, bool_decide_eq_true in Hd; unfold getitem in H1;
      destruct (p !! 1%nat) as [x|] eqn:Hx; [|discriminate H1];
      injection H1 as ->;
      unfold bytes_ok in Hpb; rewrite Forall_forall in Hpb;
      apply list_elem_of_lookup_2 in Hx; apply Hpb in Hx; lia
  | Hd : negb false = false |- _ => discriminate Hd
  end.
Qed.

End Dispatch2.

(** ** Device commands *)

Lemma authenticate_params_bytes (uid key : list Z) (block_number key_number : Z) :
  bytes_ok uid -> bytes_ok key ->
  PN532.authenticate_params uid block_number key_number key
    = Ok ([0x01; key_number mod 256; block_number mod 256] ++ key ++ uid).
Proof.
  intros Hu Hk. unfold PN532.authenticate_params, bytearray.
  replace (3 + length uid + length key)%nat with (3 + (length uid + length key))%nat by lia.
  cbn [Nat.add replicate]. rewrite !land_0xFF.
  repeat (rewrite setitem_ok;
    [ cbn [rbind insert list_insert]
    | cbn [length]; lia
    | first [ lia | apply Z.mod_pos_bound; lia ] ]).
  rewrite setslice_ok by exact Hk. cbn [rbind take drop Nat.add].
  replace (3 `max` S (S (S (length key))))%nat with (3 + length key)%nat by lia.
  cbn [Nat.add drop]. rewrite drop_replicate.
  rewrite setslice_ok by exact Hu. cbn [rbind].
  replace (length uid + length key - length key)%nat with (length uid) by lia.
  change (1 :: key_number `mod` 256 :: block_number `mod` 256
            :: take 0 (replicate (length uid + length key) 0))
    with [1; key_number `mod` 256; block_number `mod` 256].
  set (hd := [1; key_number `mod` 256; block_number `mod` 256]).
  rewrite (app_assoc hd key).
  assert (Hlen : length (hd ++ key) = S (S (S (length key))))
    by (rewrite length_app; reflexivity).
  rewrite <- Hlen, take_app_length.
  rewrite drop_ge by (rewrite !length_app; lia).
  rewrite app_nil_r, <- app_assoc. reflexivity.
Qed.

Lemma write_params_bytes (block_number : Z) (data : list Z) :
  bytes_ok data -> length data = 16%nat ->
  PN532.write_params block_number data
    = Ok ([0x01; MIFARE_CMD_WRITE; block_number mod 256] ++ data).
Proof.
  intros Hb Hl. unfold PN532.write_params, assert, bytearray.
  rewrite bool_decide_eq_true_2 by exact Hl. cbn [rbind replicate]. rewrite land_0xFF.
  repeat (rewrite setitem_ok;
    [ cbn [rbind insert list_insert]
    | cbn [length]; lia
    | first [ unfold MIFARE_CMD_WRITE; lia | apply Z.mod_pos_bound; lia ] ]).
  rewrite setslice_ok by exact Hb. cbn [rbind length]. cbn [Nat.max take drop].
  rewrite app_nil_r. reflexivity.
Qed.

Section Commands.
Context {S : Type} (hw : transport S).

(** X12.  [get_firmware_version] hands back whatever follows the two header
    bytes of the answer.  When the device completes the exchange with the
    frame of [0xD5, 0x03, result...], the bytes [result] are returned: the
    four values IC, Ver, Rev, Support when the device sent four. *)
Theorem get_firmware_version_returns (frame result response : list Z) (w w' : world S) :
  PN532.frame_bytes [_HOSTTOPN532; _COMMAND_GETFIRMWAREVERSION] = Ok frame ->
  bytes_ok result -> (length result < 253)%nat ->
  PN532.frame_bytes (_PN532TOHOST :: 0x03 :: result) = Ok response ->
  acked_exchange hw (QArith_base.Qmake 1 2) frame 13 response w w' ->
  PN532.get_firmware_version hw w = (Ok result, w').
Proof.
  intros Hframe Hb Hl Hresp Hex.
  unfold PN532.get_firmware_version, bind.
  rewrite (call_function_exchange hw _COMMAND_GETFIRMWAREVERSION 4 None _
             [_HOSTTOPN532; _COMMAND_GETFIRMWAREVERSION] frame response w w'
             (command_data_None _) Hframe Hex).
  assert (Hp : bytes_ok (_PN532TOHOST :: 0x03 :: result)).
  { repeat (apply Forall_cons; split); [unfold _PN532TOHOST; lia|lia|exact Hb]. }
  destruct (parse_frame_of_frame_bytes _ _ Hp ltac:(cbn [length]; lia) Hresp) as [_ ->].
  reflexivity.
Qed.

(** X13.  [SAM_configuration] does not look at what [call_function]
    returns.  When the device takes the frame but never becomes ready, it
    returns normally all the same, having written the frame of
    [0xD4, 0x14, 0x01, 0x14, 0x01] and polled once. *)
Theorem SAM_configuration_ignores_no_response (frame : list Z) (w : world S) (d1 d2 : S) :
  PN532.frame_bytes [_HOSTTOPN532; _COMMAND_SAMCONFIGURATION; 0x01; 0x14; 0x01] = Ok frame ->
  _write_data hw frame (dev w) = (Ok tt, d1) ->
  _wait_ready hw (QArith_base.Qmake 1 1) d1 = (Ok false, d2) ->
  PN532.SAM_configuration hw w =
    (Ok tt, World d2 (trace w ++ [EvWrite frame; EvWaitReady (QArith_base.Qmake 1 1)])).
Proof.
  intros Hframe Hwrite Hready. unfold PN532.SAM_configuration, bind, ret.
  rewrite (call_function_not_ready hw _COMMAND_SAMCONFIGURATION 0 (Some [0x01; 0x14; 0x01])
             _ [_HOSTTOPN532; _COMMAND_SAMCONFIGURATION; 0x01; 0x14; 0x01] frame w d1 d2);
    try assumption; reflexivity.
Qed.

(** X14.  [read_passive_target] turns a [BusyError] raised under
    [call_function] into "no card" ([None]); every other exception is passed
    on unchanged. *)
Theorem read_passive_target_exceptions (card_baud : Z) (timeout : timeout_t)
    (w w' : world S) (e : exn) :
  PN532.call_function hw _COMMAND_INLISTPASSIVETARGET 19 (Some [0x01; card_baud]) timeout w
    = (Raise e, w') ->
  PN532.read_passive_target hw card_baud timeout w
    = (if is_BusyError e then Ok None else Raise e, w').
Proof.
  intros H. unfold PN532.read_passive_target, bind, try_except, ret. rewrite H.
  destruct (is_BusyError e); reflexivity.
Qed.

(** X15.  Whatever the transport does, a UID returned by
    [read_passive_target] has at most 7 bytes. *)
Theorem read_passive_target_uid_length (card_baud : Z) (timeout : timeout_t)
    (w w' : world S) (uid : list Z) :
  PN532.read_passive_target hw card_baud timeout w = (Ok (Some uid), w') ->
  (length uid <= 7)%nat.
Proof.
  unfold PN532.read_passive_target, bind, try_except, ret, raise, lift.
  destruct_innermost; intros [= <- <-].
  match goal with H : bool_decide (_ > 7) = false |- _ =>
    apply bool_decide_eq_false in H end.
  unfold getslice. rewrite length_take. lia.
Qed.

(** X16.  A detected card.  When the device completes the exchange with the
    frame of [0xD5, 0x4B, 0x01, tg, sens1, sens2, sel, len(uid), uid...] for
    a UID of at most 7 bytes, [read_passive_target] returns exactly [uid]. *)
Theorem read_passive_target_returns_uid (card_baud : Z) (timeout : timeout_t)
    (frame response uid : list Z) (tg sens1 sens2 sel : Z) (w w' : world S) :
  bytes_ok [card_baud; tg; sens1; sens2; sel] -> bytes_ok uid -> (length uid <= 7)%nat ->
  PN532.frame_bytes [_HOSTTOPN532; _COMMAND_INLISTPASSIVETARGET; 0x01; card_baud] = Ok frame ->
  PN532.frame_bytes
    ([_PN532TOHOST; 0x4B; 0x01; tg; sens1; sens2; sel; Z.of_nat (length uid)] ++ uid)
    = Ok response ->
  acked_exchange hw timeout frame 28 response w w' ->
  PN532.read_passive_target hw card_baud timeout w = (Ok (Some uid), w').
Proof.
  intros Hhdr Hu Hl Hframe Hresp Hex.
  unfold bytes_ok in Hhdr.
  apply Forall_cons in Hhdr as [Hcb Hhdr]. apply Forall_cons in Hhdr as [Htg Hhdr].
  apply Forall_cons in Hhdr as [Hs1 Hhdr]. apply Forall_cons in Hhdr as [Hs2 Hhdr].
  apply Forall_cons in Hhdr as [Hsel _].
  unfold PN532.read_passive_target, bind, try_except, ret, raise, lift.
  assert (Hdata : PN532.command_data _COMMAND_INLISTPASSIVETARGET (Some [0x01; card_baud])
                  = Ok [_HOSTTOPN532; _COMMAND_INLISTPASSIVETARGET; 0x01; card_baud]).
  { rewrite command_data_bytes; [reflexivity|].
    repeat (apply Forall_cons; split; [lia|]). constructor. }
  rewrite (call_function_exchange hw _ 19 _ _ _ frame response w w' Hdata Hframe Hex).
  assert (Hp : bytes_ok ([_PN532TOHOST; 0x4B; 0x01; tg; sens1; sens2; sel;
                          Z.of_nat (length uid)] ++ uid)).
  { cbn [app]. repeat (apply Forall_cons; split; [unfold _PN532TOHOST; lia|]). exact Hu. }
  set (payload := [_PN532TOHOST; 0x4B; 0x01; tg; sens1; sens2; sel;
                   Z.of_nat (length uid)] ++ uid) in *.
  assert (Hrange : (1 < length payload < 255)%nat)
    by (unfold payload; rewrite length_app; cbn [length]; lia).
  destruct (parse_frame_of_frame_bytes _ _ Hp Hrange Hresp) as [_ ->].
  unfold payload. cbn [app rbind answer_of]. rewrite !bool_decide_eq_true_2 by reflexivity.
  cbn [getitem lookup list_lookup].
  rewrite bool_decide_eq_false_2 by (intros H; apply H; reflexivity).
  rewrite bool_decide_eq_false_2 by lia.
  unfold getslice. rewrite Nat2Z.id.
  replace (6 + length uid - 6)%nat with (length uid) by lia.
  change (drop 6 (?a :: ?b :: ?c :: ?d :: ?e :: ?f :: ?l)) with l.
  rewrite take_ge by lia. reflexivity.
Qed.

(** X17.  An answer that names one target but is too short to hold the UID
    length (fewer than 6 bytes after the header) makes
    [read_passive_target] fail at [response[5]] with [IndexError]; so does an
    empty answer, at [response[0]]. *)
Theorem read_passive_target_short_answer (card_baud : Z) (timeout : timeout_t)
    (w w' : world S) (response : list Z) :
  PN532.call_function hw _COMMAND_INLISTPASSIVETARGET 19 (Some [0x01; card_baud]) timeout w
    = (Ok (Some response), w') ->
  (length response < 6)%nat ->
  response = [] \/ response !! 0%nat = Some 0x01 ->
  PN532.read_passive_target hw card_baud timeout w = (Raise IndexError, w').
Proof.
  intros Hcall Hlen Hshape.
  unfold PN532.read_passive_target, bind, try_except, ret, raise, lift.
  rewrite Hcall. unfold getitem.
  destruct Hshape as [->|H0]; [reflexivity|]. rewrite H0.
  rewrite bool_decide_eq_false_2 by (intros H; apply H; reflexivity).
  rewrite (proj2 (lookup_ge_None response 5)) by lia. reflexivity.
Qed.

End Commands.

Lemma land_0xFF_wraps (x k : Z) : Z.land (x + 256 * k) 0xFF = Z.land x 0xFF.
Proof.
  rewrite !land_0xFF. replace (x + 256 * k) with (x + k * 256) by lia.
  apply Z_mod_plus_full.
Qed.

Section Mifare.
Context {S : Type} (hw : transport S).

(** X18.  What the MIFARE operations send.  For a key and a UID of bytes
    (fewer than 250 together), the first transport call of
    [mifare_classic_authenticate_block] is the write of a frame that parses
    back to 0xD4, 0x40 (InDataExchange), 0x01, the key number and the block
    number modulo 256, then the key, then the UID.  For 16 data bytes, that
    of [mifare_classic_write_block] parses back to 0xD4, 0x40, 0x01, 0xA0,
    the block number modulo 256 and the data. *)
Theorem mifare_operations_send (block_number : Z) (w : world S) :
  (forall uid key key_number,
     bytes_ok uid -> bytes_ok key -> (length uid + length key < 250)%nat ->
     exists frame,
       trace (PN532.mifare_classic_authenticate_block hw uid block_number key_number key w).2
         !! length (trace w) = Some (EvWrite frame) /\
       PN532.parse_frame frame
         = Ok ([0xD4; 0x40; 0x01; key_number mod 256; block_number mod 256] ++ key ++ uid)) /\
  (forall data,
     bytes_ok data -> length data = 16%nat ->
     exists frame,
       trace (PN532.mifare_classic_write_block hw block_number data w).2
         !! length (trace w) = Some (EvWrite frame) /\
       PN532.parse_frame frame
         = Ok ([0xD4; 0x40; 0x01; 0xA0; block_number mod 256] ++ data)).
Proof.
  split.
  - intros uid key key_number Hu Hk Hl.
    assert (Hp : bytes_ok ([0x01; key_number mod 256; block_number mod 256] ++ key ++ uid)).
    { cbn [app]. repeat (apply Forall_cons; split; [try lia; apply Z.mod_pos_bound; lia|]).
      apply Forall_app. split; assumption. }
    destruct (call_function_first_write hw _COMMAND_INDATAEXCHANGE 1 _
                (QArith_base.Qmake 1 1) w Hp) as (frame & Ht & Hparse).
    { cbn [app length]. rewrite length_app. lia. }
    exists frame. split; [|exact Hparse].
    unfold PN532.mifare_classic_authenticate_block, bind, lift, ret.
    rewrite authenticate_params_bytes by assumption.
    destruct (PN532.call_function hw _ _ _ _ w) as [[r|e] w1]; cbn [snd] in Ht |- *;
      [|exact Ht].
    destruct (PN532.check_status r); [|exact Ht].
    destruct (subscript r 0); exact Ht.
  - intros data Hd Hl.
    assert (Hp : bytes_ok ([0x01; MIFARE_CMD_WRITE; block_number mod 256] ++ data)).
    { cbn [app]. repeat (apply Forall_cons; split;
        [try (unfold MIFARE_CMD_WRITE; lia); apply Z.mod_pos_bound; lia|]). exact Hd. }
    destruct (call_function_first_write hw _COMMAND_INDATAEXCHANGE 1 _
                (QArith_base.Qmake 1 1) w Hp) as (frame & Ht & Hparse).
    { cbn [app length]. lia. }
    exists frame. split; [|exact Hparse].
    unfold PN532.mifare_classic_write_block, bind, lift, ret.
    rewrite write_params_bytes by assumption.
    destruct (PN532.call_function hw _ _ _ _ w) as [[r|e] w1]; cbn [snd] in Ht |- *;
      [|exact Ht].
    destruct (PN532.check_status r); [|exact Ht].
    destruct (subscript r 0); exact Ht.
Qed.

(** X19.  The docstrings promise [False] when a block is not authenticated
    or not written.  The code never returns it: whenever
    [mifare_classic_authenticate_block] or [mifare_classic_write_block]
    returns, the value is [True]; every failure is an exception. *)
Theorem mifare_operations_never_return_False (block_number : Z) (w w' : world S) (b : bool) :
  (forall uid key_number key,
     PN532.mifare_classic_authenticate_block hw uid block_number key_number key w
       = (Ok b, w') -> b = true) /\
  (forall data,
     PN532.mifare_classic_write_block hw block_number data w = (Ok b, w') -> b = true).
Proof.
  split; intros *;
    [unfold PN532.mifare_classic_authenticate_block|unfold PN532.mifare_classic_write_block];
    unfold bind, lift, ret, PN532.check_status, rbind;
    destruct_innermost; intros [= <- <-];
    match goal with
    | Hd : bool_decide (?x <> 0) = false |- _ =>
        apply bool_decide_eq_false in Hd;
        apply bool_decide_eq_true_2; destruct (decide (x = 0)); [assumption|contradiction]
    end.
Qed.

(** X20.  The status byte of a block read.  Given the answer
    [status, data...] from the dispatcher, [mifare_classic_read_block]
    returns [data] (all of it, 16 bytes or not) when the status is 0; raises
    [PN532Error] with the status and its message when the status is a key
    of [PN532_ERRORS]; and raises [KeyError] when it is any other non-zero
    value. *)
Theorem read_block_status (block_number status : Z) (data : list Z) (w w' : world S) :
  PN532.call_function hw _COMMAND_INDATAEXCHANGE 17
    (Some [0x01; MIFARE_CMD_READ; Z.land block_number 0xFF]) (QArith_base.Qmake 1 1) w
    = (Ok (Some (status :: data)), w') ->
  (status = 0 -> PN532.mifare_classic_read_block hw block_number w = (Ok data, w')) /\
  (forall msg, status <> 0 -> PN532_ERRORS !! status = Some msg ->
     PN532.mifare_classic_read_block hw block_number w
       = (Raise (PN532Error (mkPN532Error status msg)), w')) /\
  (status <> 0 -> PN532_ERRORS !! status = None ->
     PN532.mifare_classic_read_block hw block_number w = (Raise (KeyError status), w')).
Proof.
  intros Hcall. unfold PN532.mifare_classic_read_block, bind, lift.
  rewrite Hcall. unfold PN532.check_status, PN532Error__init__, dict_getitem.
  cbn [subscript getitem lookup list_lookup rbind].
  split; [|split].
  - intros ->. rewrite bool_decide_eq_false_2 by (intros H; apply H; reflexivity).
    reflexivity.
  - intros msg Hne Hmsg. rewrite bool_decide_eq_true_2 by exact Hne.
    rewrite Hmsg. reflexivity.
  - intros Hne Hnone. rewrite bool_decide_eq_true_2 by exact Hne.
    rewrite Hnone. reflexivity.
Qed.

(** X21.  The same status handling in the two operations that return a
    flag, [mifare_classic_authenticate_block] and
    [mifare_classic_write_block]: given the answer [status, ...] from the
    dispatcher, status 0 gives [True], a status in [PN532_ERRORS] the
    [PN532Error] that carries it, any other status a [KeyError]. *)
Theorem flag_operations_status (block_number status : Z) (rest : list Z) (w w' : world S) :
  (forall uid key_number key params,
     PN532.authenticate_params uid block_number key_number key = Ok params ->
     PN532.call_function hw _COMMAND_INDATAEXCHANGE 1 (Some params) (QArith_base.Qmake 1 1) w
       = (Ok (Some (status :: rest)), w') ->
     PN532.mifare_classic_authenticate_block hw uid block_number key_number key w =
       (if bool_decide (status = 0) then Ok true
        else match PN532_ERRORS !! status with
             | Some msg => Raise (PN532Error (mkPN532Error status msg))
             | None => Raise (KeyError status)
             end, w')) /\
  (forall data params,
     PN532.write_params block_number data = Ok params ->
     PN532.call_function hw _COMMAND_INDATAEXCHANGE 1 (Some params) (QArith_base.Qmake 1 1) w
       = (Ok (Some (status :: rest)), w') ->
     PN532.mifare_classic_write_block hw block_number data w =
       (if bool_decide (status = 0) then Ok true
        else match PN532_ERRORS !! status with
             | Some msg => Raise (PN532Error (mkPN532Error status msg))
             | None => Raise (KeyError status)
             end, w')).
Proof.
  split.
  - intros uid key_number key params Hp Hcall.
    unfold PN532.mifare_classic_authenticate_block, bind, lift, ret.
    rewrite Hp, Hcall. unfold PN532.check_status, PN532Error__init__, dict_getitem.
    cbn [subscript getitem lookup list_lookup rbind].
    destruct (decide (status = 0)) as [->|Hne]; [reflexivity|].
    rewrite bool_decide_eq_true_2 by exact Hne.
    rewrite (bool_decide_eq_false_2 (status = 0)) by exact Hne.
    destruct (PN532_ERRORS !! status); reflexivity.
  - intros data params Hp Hcall.
    unfold PN532.mifare_classic_write_block, bind, lift, ret.
    rewrite Hp, Hcall. unfold PN532.check_status, PN532Error__init__, dict_getitem.
    cbn [subscript getitem lookup list_lookup rbind].
    destruct (decide (status = 0)) as [->|Hne]; [reflexivity|].
    rewrite bool_decide_eq_true_2 by exact Hne.
    rewrite (bool_decide_eq_false_2 (status = 0)) by exact Hne.
    destruct (PN532_ERRORS !! status); reflexivity.
Qed.

(** X22.  A block read end to end.  When the device completes the exchange
    with the frame of [0xD5, 0x41, 0x00, data...], [mifare_classic_read_block]
    returns exactly [data]: the 16 bytes of the block when the device sent
    16. *)
Theorem read_block_returns_data (block_number : Z) (frame response data : list Z)
    (w w' : world S) :
  PN532.frame_bytes
    [_HOSTTOPN532; _COMMAND_INDATAEXCHANGE; 0x01; MIFARE_CMD_READ; block_number mod 256]
    = Ok frame ->
  bytes_ok data -> (length data < 252)%nat ->
  PN532.frame_bytes ([_PN532TOHOST; 0x41; 0x00] ++ data) = Ok response ->
  acked_exchange hw (QArith_base.Qmake 1 1) frame 26 response w w' ->
  PN532.mifare_classic_read_block hw block_number w = (Ok data, w').
Proof.
  intros Hframe Hb Hl Hresp Hex.
  unfold PN532.mifare_classic_read_block, bind, lift.
  assert (Hdata : PN532.command_data _COMMAND_INDATAEXCHANGE
                    (Some [0x01; MIFARE_CMD_READ; Z.land block_number 0xFF])
                  = Ok [_HOSTTOPN532; _COMMAND_INDATAEXCHANGE; 0x01; MIFARE_CMD_READ;
                        block_number mod 256]).
  { rewrite land_0xFF, command_data_bytes; [reflexivity|].
    repeat (apply Forall_cons; split;
      [try (unfold MIFARE_CMD_READ; lia); apply Z.mod_pos_bound; lia|]). constructor. }
  rewrite (call_function_exchange hw _ 17 _ _ _ frame response w w' Hdata Hframe Hex).
  set (payload := [_PN532TOHOST; 0x41; 0x00] ++ data) in *.
  assert (Hp : bytes_ok payload).
  { unfold payload. cbn [app].
    repeat (apply Forall_cons; split; [unfold _PN532TOHOST; lia|]). exact Hb. }
  assert (Hrange : (1 < length payload < 255)%nat)
    by (unfold payload; cbn [app length]; lia).
  destruct (parse_frame_of_frame_bytes _ _ Hp Hrange Hresp) as [_ ->].
  unfold payload. cbn [app rbind answer_of].
  rewrite !bool_decide_eq_true_2 by reflexivity. reflexivity.
Qed.

(** X23.  [mifare_classic_write_block] refuses data that is not 16 items
    long with the [AssertionError] of its [assert], before any call to the
    transport: the world is unchanged. *)
Theorem write_block_rejects_wrong_length (block_number : Z) (data : list Z) (w : world S) :
  length data <> 16%nat ->
  PN532.mifare_classic_write_block hw block_number data w
    = (Raise (AssertionError "Data must be an array of 16 bytes!"), w).
Proof.
  intros H. unfold PN532.mifare_classic_write_block, bind, lift, PN532.write_params, assert.
  rewrite bool_decide_eq_false_2 by exact H. reflexivity.
Qed.

(** X24.  Block numbers wrap around: the three MIFARE operations use
    [block_number & 0xFF], so [block_number + 256 * k] addresses the same
    block as [block_number] and gives the same outcome. *)
Theorem block_number_wraps (block_number k : Z) (w : world S) :
  (forall uid key_number key,
     PN532.mifare_classic_authenticate_block hw uid (block_number + 256 * k) key_number key w
       = PN532.mifare_classic_authenticate_block hw uid block_number key_number key w) /\
  PN532.mifare_classic_read_block hw (block_number + 256 * k) w
    = PN532.mifare_classic_read_block hw block_number w /\
  (forall data,
     PN532.mifare_classic_write_block hw (block_number + 256 * k) data w
       = PN532.mifare_classic_write_block hw block_number data w).
Proof.
  split; [|split].
  - intros. unfold PN532.mifare_classic_authenticate_block, PN532.authenticate_params.
    rewrite land_0xFF_wraps. reflexivity.
  - unfold PN532.mifare_classic_read_block. rewrite land_0xFF_wraps. reflexivity.
  - intros. unfold PN532.mifare_classic_write_block, PN532.write_params.
    rewrite land_0xFF_wraps. reflexivity.
Qed.

End Mifare.

Section Constructor.
Context {S : Type} (hw : transport S).

(** X25.  When the first [get_firmware_version] of the constructor
    succeeds, the constructor returns at once: no second attempt is made, the
    world is the one the first attempt left. *)
Theorem init_first_attempt_suffices (reset : option Z) (w0 w w1 : world S) (d : S)
    (version : list Z) :
  reset_done hw reset w0 w ->
  _wakeup hw (dev w) = (Ok tt, d) ->
  PN532.get_firmware_version hw (World d (trace w ++ [EvWakeup])) = (Ok version, w1) ->
  PN532.__init__ hw reset w0 = (Ok tt, w1).
Proof.
  intros Hreset Hwake Hfirst.
  unfold PN532.__init__, bind, try_except.
  rewrite (reset_step_run hw _ _ _ Hreset). unfold call at 1, ret.
  rewrite Hwake. cbn [dev trace]. rewrite Hfirst. reflexivity.
Qed.

(** X26.  The reset pin.  [reset=0] is falsy, so pin 0 is never toggled: the
    constructor behaves as without [reset].  For any other pin [_reset] is
    called first, outside the [try]: if it raises, even a [BusyError] or a
    [RuntimeError], the constructor raises the same exception and neither
    wakes the device nor asks for the firmware version. *)
Theorem init_reset_pin (w : world S) :
  PN532.__init__ hw (Some 0) w = PN532.__init__ hw None w /\
  (forall pin e d, pin <> 0 ->
     _reset hw pin (dev w) = (Raise e, d) ->
     PN532.__init__ hw (Some pin) w = (Raise e, World d (trace w ++ [EvReset pin]))).
Proof.
  split; [reflexivity|].
  intros pin e d Hpin Hreset. unfold PN532.__init__, bind, PN532.truthy.
  rewrite bool_decide_eq_true_2 by exact Hpin. unfold call. rewrite Hreset. reflexivity.
Qed.

End Constructor.

(** On the class itself [get_firmware_version] fails in [_write_data]. *)
Lemma base_class_get_firmware_version (w : world unit) :
  PN532.get_firmware_version base_class w =
    (Raise NotImplementedError,
     World tt (trace w ++ [EvWrite [0x00; 0x00; 0xFF; 0x02; 0xFE; 0xD4; 0x02; 0x2A; 0x00]])).
Proof.
  assert (Hf : PN532.frame_bytes [_HOSTTOPN532; _COMMAND_GETFIRMWAREVERSION mod 256]
               = Ok [0x00; 0x00; 0xFF; 0x02; 0xFE; 0xD4; 0x02; 0x2A; 0x00])
    by (vm_compute; reflexivity).
  unfold PN532.get_firmware_version, PN532.call_function, bind, lift.
  rewrite command_data_None.
  unfold try_except, PN532._write_frame, bind, lift, call. rewrite Hf.
  destruct w as [[] tr]. reflexivity.
Qed.

(** X28.  The class [PN532] itself cannot be constructed.  Its hardware
    methods raise [NotImplementedError], a [RuntimeError]: the one from
    [_wakeup] is swallowed by the constructor, and the second attempt then
    fails in [_write_data]; [call_function] does not take it for an [OSError],
    so it is raised.  With a reset pin, [_reset] already raises it. *)
Theorem base_class_cannot_be_constructed (reset : option Z) (w : world unit) :
  PN532.__init__ base_class reset w =
    (Raise NotImplementedError,
     World tt (trace w ++
               if PN532.truthy reset
               then match reset with Some pin => [EvReset pin] | None => [] end
               else [EvWakeup; EvWrite [0x00; 0x00; 0xFF; 0x02; 0xFE; 0xD4; 0x02; 0x2A; 0x00]])).
Proof.
  unfold PN532.__init__, bind at 1.
  destruct reset as [pin|]; cbn [PN532.truthy].
  - destruct (bool_decide (pin <> 0)) eqn:Hp.
    + destruct w as [[] tr]. reflexivity.
    + unfold ret at 1. unfold bind, try_except, call at 1. cbn [base_class _wakeup].
      cbn [is_BusyError is_RuntimeError orb]. unfold ret at 1.
      rewrite base_class_get_firmware_version. cbn [trace].
      rewrite <- app_assoc. reflexivity.
  - unfold ret at 1. unfold bind, try_except, call at 1. cbn [base_class _wakeup].
    cbn [is_BusyError is_RuntimeError orb]. unfold ret at 1.
    rewrite base_class_get_firmware_version. cbn [trace].
    rewrite <- app_assoc. reflexivity.
Qed.

(** ** The dump loop of the script *)

(** The formatting at work: the sixteen bytes of the first expected block
    give the first line of [hatzCorect], and single values are padded to two
    upper-case digits. *)
Example format_block_first_line :
  hatzCorect !! 0%nat
    = Some (format_block [0xE5; 0x01; 0x54; 0x23; 0x93; 0x08; 0x04; 0x00;
                          0x62; 0x63; 0x64; 0x65; 0x66; 0x67; 0x68; 0x69]) /\
  format_02X 0x0A = "0A"%string /\ format_02X 0x00 = "00"%string /\
  format_block [] = ""%string.
Proof. vm_compute. repeat split; reflexivity. Qed.

Section ScriptProps.
Context {S : Type} (hw : transport S).

(** The list the loop returns extends the list it started from by at most
    one entry per block. *)
Lemma dump_loop_extends (uid blocks : list Z) (hatz out : list string) (w w' : world S) :
  dump_loop hw uid blocks hatz w = (Ok out, w') ->
  exists more, out = hatz ++ more /\ (length more <= length blocks)%nat.
Proof.
  revert hatz w. induction blocks as [|i blocks IH]; intros hatz w.
  - cbn [dump_loop]. unfold ret. intros [= <- <-]. exists []. rewrite app_nil_r.
    split; [reflexivity|cbn; lia].
  - cbn [dump_loop]. unfold bind at 1.
    destruct (try_except _ _ _ w) as [[[hatz1|hatz1]|e] w1] eqn:Hstep; [| |discriminate].
    + intros Hrest. apply IH in Hrest as (more & -> & Hlen).
      unfold try_except, bind, ret in Hstep.
      revert Hstep. destruct_innermost; intros [= <- <-].
      eexists (_ :: more). rewrite <- app_assoc. split; [reflexivity|].
      cbn [length]. lia.
    + unfold ret. intros [= <- <-].
      unfold try_except, bind, ret in Hstep.
      revert Hstep. destruct_innermost; intros [= <- <-].
      all: exists []; rewrite app_nil_r; split; [reflexivity|cbn [length]; lia].
Qed.

(** X30.  The dump of the script has at most eight lines, and a dump cut
    short by a device error (fewer than eight lines) always ends with pin 19,
    the red LED, set high: pin 26 needs all eight blocks. *)
Theorem dump_at_most_eight_lines (uid : list Z) (out : list string) (w w' : world S) :
  dump_loop hw uid range8 [] w = (Ok out, w') ->
  (length out <= 8)%nat /\ ((length out < 8)%nat -> led_pin out = 19).
Proof.
  intros H. apply dump_loop_extends in H as (more & -> & Hlen).
  cbn [app length range8] in *. split; [exact Hlen|].
  intros Hshort. unfold led_pin. rewrite bool_decide_eq_false_2; [reflexivity|].
  intros ->. cbn in Hshort. lia.
Qed.

(** X29.  One block of the dump.  The block is authenticated with key A
    (FF FF FF FF FF FF), read, and read again; the line appended is the
    second read, formatted, and the loop goes on with the next block.  If
    any of the three calls raises [PN532Error] the loop ends there without
    an exception and keeps the lines it has; any other exception (the
    [TypeError] of a timeout, say) leaves the loop and aborts the script. *)
Theorem dump_loop_block (uid rest : list Z) (i : Z) (hatz : list string) (w : world S) :
  (forall e w1,
     PN532.mifare_classic_authenticate_block hw uid i MIFARE_CMD_AUTH_A
       [0xFF; 0xFF; 0xFF; 0xFF; 0xFF; 0xFF] w = (Raise e, w1) ->
     dump_loop hw uid (i :: rest) hatz w
       = (if is_PN532Error e then Ok hatz else Raise e, w1)) /\
  (forall b w1,
     PN532.mifare_classic_authenticate_block hw uid i MIFARE_CMD_AUTH_A
       [0xFF; 0xFF; 0xFF; 0xFF; 0xFF; 0xFF] w = (Ok b, w1) ->
     (forall e w2,
        PN532.mifare_classic_read_block hw i w1 = (Raise e, w2) ->
        dump_loop hw uid (i :: rest) hatz w
          = (if is_PN532Error e then Ok hatz else Raise e, w2)) /\
     (forall first w2,
        PN532.mifare_classic_read_block hw i w1 = (Ok first, w2) ->
        (forall e w3,
           PN532.mifare_classic_read_block hw i w2 = (Raise e, w3) ->
           dump_loop hw uid (i :: rest) hatz w
             = (if is_PN532Error e then Ok hatz else Raise e, w3)) /\
        (forall again w3,
           PN532.mifare_classic_read_block hw i w2 = (Ok again, w3) ->
           dump_loop hw uid (i :: rest) hatz w
             = dump_loop hw uid rest (hatz ++ [format_block again]) w3))).
Proof.
  cbn [dump_loop]. unfold bind, try_except, ret, key_number, auth_key.
  split.
  - intros e w1 ->. destruct (is_PN532Error e); reflexivity.
  - intros b w1 ->. split.
    + intros e w2 ->. destruct (is_PN532Error e); reflexivity.
    + intros first w2 ->. split.
      * intros e w3 ->. destruct (is_PN532Error e); reflexivity.
      * intros again w3 ->. reflexivity.
Qed.

End ScriptProps.

(** ** The further statements at concrete devices *)

(** A scripted device that is ready twice and has two answers queued
    completes an exchange. *)
Lemma scripted_exchange (timeout : timeout_t) (frame response : list Z) (count : nat)
    (tr : list event) :
  (length response <= count)%nat ->
  acked_exchange scripted timeout frame count response
    (World (Script [] [true; true] [_ACK; response]) tr)
    (World (Script [] [] [])
       (tr ++ [EvWrite frame; EvWaitReady timeout; EvRead (length _ACK);
               EvWaitReady timeout; EvRead count])).
Proof.
  intros Hlen. unfold acked_exchange. cbn [scripted _write_data _wait_ready _read_data dev
    on_write on_ready on_read].
  eexists _, _, _, _, _. repeat split; try reflexivity.
  cbn [on_read on_write on_ready]. rewrite take_ge by exact Hlen. reflexivity.
Qed.

Lemma call_function_sends_command_witness :
  exists frame,
    trace (PN532.call_function scripted _COMMAND_INLISTPASSIVETARGET 19 (Some [0x01; 0x00])
             (QArith_base.Qmake 1 1) (World (Script [] [] []) [])).2 !! 0%nat
      = Some (EvWrite frame) /\
    PN532.parse_frame frame = Ok [0xD4; 0x4A; 0x01; 0x00].
Proof.
  apply (call_function_sends_command scripted _COMMAND_INLISTPASSIVETARGET 19 [0x01; 0x00]
           (QArith_base.Qmake 1 1) (World (Script [] [] []) [])).
  - repeat constructor; lia.
  - simpl; lia.
Defined.

Lemma call_function_returns_result_witness :
  PN532.call_function scripted _COMMAND_GETFIRMWAREVERSION 4 None (QArith_base.Qmake 1 2)
    (World (Script [] [true; true] [_ACK; firmware_answer]) [])
  = (Ok (Some [0x32; 0x01; 0x06; 0x07]),
     World (Script [] [] [])
       [EvWrite firmware_command; EvWaitReady (QArith_base.Qmake 1 2); EvRead 6;
        EvWaitReady (QArith_base.Qmake 1 2); EvRead 13]).
Proof.
  refine (proj1 (call_function_returns_result scripted _COMMAND_GETFIRMWAREVERSION 4 None
            (QArith_base.Qmake 1 2) [0xD4; 0x02] firmware_command [0x32; 0x01; 0x06; 0x07]
            firmware_answer _ _ _ _ _ _ _ _ _)).
  - vm_compute. reflexivity.
  - vm_compute. reflexivity.
  - repeat constructor; lia.
  - simpl; lia.
  - unfold _COMMAND_GETFIRMWAREVERSION. lia.
  - vm_compute. reflexivity.
  - apply (scripted_exchange _ firmware_command firmware_answer 13 []). simpl; lia.
Defined.

Lemma call_function_refuses_other_answer_witness :
  PN532.call_function scripted _COMMAND_GETFIRMWAREVERSION 4 None (QArith_base.Qmake 1 2)
    (World (Script [] [true; true]
              [_ACK; [0x00; 0x00; 0xFF; 0x03; 0xFD; 0xD5; 0x05; 0x00; 0x26; 0x00]]) [])
  = (Raise unexpected_response,
     World (Script [] [] [])
       [EvWrite firmware_command; EvWaitReady (QArith_base.Qmake 1 2); EvRead 6;
        EvWaitReady (QArith_base.Qmake 1 2); EvRead 13]).
Proof.
  refine (call_function_refuses_other_answer scripted _COMMAND_GETFIRMWAREVERSION 4 None
            (QArith_base.Qmake 1 2) [0xD4; 0x02] firmware_command [0x00]
            [0x00; 0x00; 0xFF; 0x03; 0xFD; 0xD5; 0x05; 0x00; 0x26; 0x00] 0xD5 0x05
            _ _ _ _ _ _ _ _ _).
  - vm_compute. reflexivity.
  - vm_compute. reflexivity.
  - repeat constructor; lia.
  - simpl; lia.
  - vm_compute. reflexivity.
  - apply (scripted_exchange _ firmware_command _ 13 []). simpl; lia.
  - right. unfold _COMMAND_GETFIRMWAREVERSION. lia.
Defined.

Lemma call_function_truncated_result_witness :
  PN532.call_function scripted _COMMAND_GETFIRMWAREVERSION 4 None (QArith_base.Qmake 1 2)
    (World (Script [] [true; true] [_ACK; [0x00; 0x00; 0xFF; 0x06; 0xFA]]) [])
  = (Raise IndexError,
     World (Script [] [] [])
       [EvWrite firmware_command; EvWaitReady (QArith_base.Qmake 1 2); EvRead 6;
        EvWaitReady (QArith_base.Qmake 1 2); EvRead 13]).
Proof.
  refine (proj2 (call_function_truncated_result scripted _COMMAND_GETFIRMWAREVERSION 4 None
            (QArith_base.Qmake 1 2) [0xD4; 0x02] firmware_command 2 0x06 0xFA
            _ _ _ _ _ _)).
  - vm_compute. reflexivity.
  - vm_compute. reflexivity.
  - reflexivity.
  - apply (scripted_exchange _ firmware_command [0x00; 0x00; 0xFF; 0x06; 0xFA] 13 []).
    simpl; lia.
Defined.

Lemma call_function_command_range_witness : -1 <= _COMMAND_GETFIRMWAREVERSION <= 254.
Proof.
  refine (call_function_command_range firmware_device _COMMAND_GETFIRMWAREVERSION 4 None
            (QArith_base.Qmake 1 2) [0x32; 0x01; 0x06; 0x07] (World 0%nat [])
            (World 2%nat [EvWrite firmware_command; EvWaitReady (QArith_base.Qmake 1 2);
                          EvRead 6; EvWaitReady (QArith_base.Qmake 1 2); EvRead 13]) _ _).
  - intros count d response d'. cbn [firmware_device _read_data]. intros [= <- _].
    apply Forall_take. destruct d; vm_compute; repeat constructor; discriminate.
  - vm_compute. reflexivity.
Defined.

Lemma get_firmware_version_returns_witness :
  (PN532.get_firmware_version scripted
     (World (Script [] [true; true] [_ACK; firmware_answer]) [])).1
  = Ok [0x32; 0x01; 0x06; 0x07].
Proof.
  erewrite (get_firmware_version_returns scripted firmware_command [0x32; 0x01; 0x06; 0x07]
              firmware_answer).
  - reflexivity.
  - vm_compute. reflexivity.
  - repeat constructor; lia.
  - simpl; lia.
  - vm_compute. reflexivity.
  - apply (scripted_exchange _ firmware_command firmware_answer 13 []). simpl; lia.
Defined.

Lemma SAM_configuration_ignores_no_response_witness :
  PN532.SAM_configuration scripted (World (Script [] [] []) [])
  = (Ok tt,
     World (Script [] [] [])
       [EvWrite [0x00; 0x00; 0xFF; 0x05; 0xFB; 0xD4; 0x14; 0x01; 0x14; 0x01; 0x02; 0x00];
        EvWaitReady (QArith_base.Qmake 1 1)]).
Proof.
  apply (SAM_configuration_ignores_no_response scripted
           [0x00; 0x00; 0xFF; 0x05; 0xFB; 0xD4; 0x14; 0x01; 0x14; 0x01; 0x02; 0x00]
           (World (Script [] [] []) []) (Script [] [] []) (Script [] [] [])).
  - vm_compute. reflexivity.
  - reflexivity.
  - reflexivity.
Defined.

Lemma read_passive_target_exceptions_witness :
  (PN532.read_passive_target scripted _MIFARE_ISO14443A (QArith_base.Qmake 1 2)
     (World (Script [Raise BusyError] [] []) [])).1 = Ok None /\
  (PN532.read_passive_target scripted _MIFARE_ISO14443A (QArith_base.Qmake 1 2)
     (World (Script [Raise ValueError] [] []) [])).1 = Raise ValueError.
Proof.
  split.
  - erewrite (read_passive_target_exceptions scripted _MIFARE_ISO14443A _ _ _ BusyError);
      [reflexivity|]. vm_compute. reflexivity.
  - erewrite (read_passive_target_exceptions scripted _MIFARE_ISO14443A _ _ _ ValueError);
      [reflexivity|]. vm_compute. reflexivity.
Defined.

Lemma read_passive_target_uid_length_witness :
  (length [0xAA; 0xBB; 0xCC; 0xDD] <= 7)%nat.
Proof.
  refine (read_passive_target_uid_length scripted _MIFARE_ISO14443A (QArith_base.Qmake 1 1)
            (World (Script [] [true; true] [_ACK; card_answer]) [])
            (World (Script [] [] [])
               [EvWrite list_target_command; EvWaitReady (QArith_base.Qmake 1 1); EvRead 6;
                EvWaitReady (QArith_base.Qmake 1 1); EvRead 28])
            [0xAA; 0xBB; 0xCC; 0xDD] _).
  vm_compute. reflexivity.
Defined.

Lemma read_passive_target_returns_uid_witness :
  (PN532.read_passive_target scripted _MIFARE_ISO14443A (QArith_base.Qmake 1 1)
     (World (Script [] [true; true] [_ACK; card_answer]) [])).1
  = Ok (Some [0xAA; 0xBB; 0xCC; 0xDD]).
Proof.
  erewrite (read_passive_target_returns_uid scripted _MIFARE_ISO14443A _
              list_target_command card_answer [0xAA; 0xBB; 0xCC; 0xDD] 0x01 0x00 0x04 0x08).
  - reflexivity.
  - repeat constructor; unfold _MIFARE_ISO14443A; lia.
  - repeat constructor; lia.
  - simpl; lia.
  - vm_compute. reflexivity.
  - vm_compute. reflexivity.
  - apply (scripted_exchange _ list_target_command card_answer 28 []). simpl; lia.
Defined.

Lemma read_passive_target_short_answer_witness :
  (PN532.read_passive_target scripted _MIFARE_ISO14443A (QArith_base.Qmake 1 1)
     (World (Script [] [true; true]
               [_ACK; [0x00; 0x00; 0xFF; 0x03; 0xFD; 0xD5; 0x4B; 0x01; 0xDF; 0x00]]) [])).1
  = Raise IndexError.
Proof.
  erewrite (read_passive_target_short_answer scripted _MIFARE_ISO14443A _ _ _ [0x01]).
  - reflexivity.
  - vm_compute. reflexivity.
  - simpl; lia.
  - right. reflexivity.
Defined.

Lemma mifare_operations_send_witness :
  (exists frame,
     trace (PN532.mifare_classic_authenticate_block scripted [0xAA; 0xBB; 0xCC; 0xDD] 4
              MIFARE_CMD_AUTH_A [0xFF; 0xFF; 0xFF; 0xFF; 0xFF; 0xFF]
              (World (Script [] [] []) [])).2 !! 0%nat = Some (EvWrite frame) /\
     PN532.parse_frame frame
       = Ok [0xD4; 0x40; 0x01; 0x60; 0x04; 0xFF; 0xFF; 0xFF; 0xFF; 0xFF; 0xFF;
             0xAA; 0xBB; 0xCC; 0xDD]) /\
  (exists frame,
     trace (PN532.mifare_classic_write_block scripted 4 (replicate 16 0x11)
              (World (Script [] [] []) [])).2 !! 0%nat = Some (EvWrite frame) /\
     PN532.parse_frame frame = Ok ([0xD4; 0x40; 0x01; 0xA0; 0x04] ++ replicate 16 0x11)).
Proof.
  destruct (mifare_operations_send scripted 4 (World (Script [] [] []) [])) as [Hauth Hwrite].
  split.
  - apply (Hauth [0xAA; 0xBB; 0xCC; 0xDD] [0xFF; 0xFF; 0xFF; 0xFF; 0xFF; 0xFF]
             MIFARE_CMD_AUTH_A).
    + repeat constructor; lia.
    + repeat constructor; lia.
    + simpl; lia.
  - apply (Hwrite (replicate 16 0x11)).
    + repeat constructor; lia.
    + reflexivity.
Defined.

Lemma mifare_operations_never_return_False_witness :
  (PN532.mifare_classic_authenticate_block scripted [0xAA; 0xBB; 0xCC; 0xDD] 4
     MIFARE_CMD_AUTH_A [0xFF; 0xFF; 0xFF; 0xFF; 0xFF; 0xFF]
     (World (Script [] [true; true] [_ACK; status_ok_answer]) [])).1 = Ok true.
Proof.
  set (w := World (Script [] [true; true] [_ACK; status_ok_answer]) []).
  set (out := PN532.mifare_classic_authenticate_block scripted [0xAA; 0xBB; 0xCC; 0xDD] 4
                MIFARE_CMD_AUTH_A [0xFF; 0xFF; 0xFF; 0xFF; 0xFF; 0xFF] w).
  assert (Hout : out = (Ok (match out.1 with Ok b => b | Raise _ => false end), out.2))
    by (vm_compute; reflexivity).
  pose proof (proj1 (mifare_operations_never_return_False scripted 4 w out.2 _)
                [0xAA; 0xBB; 0xCC; 0xDD] MIFARE_CMD_AUTH_A
                [0xFF; 0xFF; 0xFF; 0xFF; 0xFF; 0xFF] Hout) as Hb.
  exact (eq_trans (f_equal fst Hout) (f_equal Ok Hb)).
Defined.

Lemma read_block_status_witness :
  (PN532.mifare_classic_read_block scripted 4
     (World (Script [] [true; true] [_ACK; auth_failed_answer]) [])).1
  = Raise (PN532Error (mkPN532Error 0x14 "PN532 ERROR MIFARE_AUTH")).
Proof.
  set (w := World (Script [] [true; true] [_ACK; auth_failed_answer]) []).
  destruct (read_block_status scripted 4 0x14 []
              w (PN532.call_function scripted _COMMAND_INDATAEXCHANGE 17
                   (Some [0x01; MIFARE_CMD_READ; Z.land 4 0xFF]) (QArith_base.Qmake 1 1) w).2)
    as (_ & Herr & _).
  - vm_compute. reflexivity.
  - rewrite (Herr "PN532 ERROR MIFARE_AUTH"%string); [reflexivity|lia|].
    vm_compute. reflexivity.
Defined.

Lemma flag_operations_status_witness :
  (PN532.mifare_classic_write_block scripted 4 (replicate 16 0x11)
     (World (Script [] [true; true] [_ACK; status_ok_answer]) [])).1 = Ok true.
Proof.
  set (w := World (Script [] [true; true] [_ACK; status_ok_answer]) []).
  destruct (flag_operations_status scripted 4 0x00 []
              w (PN532.mifare_classic_write_block scripted 4 (replicate 16 0x11) w).2)
    as [_ Hwrite].
  refine (f_equal fst (Hwrite (replicate 16 0x11)
                         ([0x01; MIFARE_CMD_WRITE; 0x04] ++ replicate 16 0x11) _ _));
    vm_compute; reflexivity.
Defined.

Lemma read_block_returns_data_witness :
  (PN532.mifare_classic_read_block scripted 4
     (World (Script [] [true; true] [_ACK; block_answer]) [])).1
  = Ok [0x00; 0x01; 0x02; 0x03; 0x04; 0x05; 0x06; 0x07;
        0x08; 0x09; 0x0A; 0x0B; 0x0C; 0x0D; 0x0E; 0x0F].
Proof.
  erewrite (read_block_returns_data scripted 4 read_block4_command block_answer
              [0x00; 0x01; 0x02; 0x03; 0x04; 0x05; 0x06; 0x07;
               0x08; 0x09; 0x0A; 0x0B; 0x0C; 0x0D; 0x0E; 0x0F]).
  - reflexivity.
  - vm_compute. reflexivity.
  - repeat constructor; lia.
  - simpl; lia.
  - vm_compute. reflexivity.
  - apply (scripted_exchange _ read_block4_command block_answer 26 []). simpl; lia.
Defined.

Lemma write_block_rejects_wrong_length_witness :
  PN532.mifare_classic_write_block scripted 4 (replicate 15 0x11) (World (Script [] [] []) [])
  = (Raise (AssertionError "Data must be an array of 16 bytes!"), World (Script [] [] []) []).
Proof.
  apply (write_block_rejects_wrong_length scripted 4 (replicate 15 0x11)). simpl. lia.
Defined.

Lemma init_first_attempt_suffices_witness :
  PN532.__init__ scripted (Some 20) (World (Script [] [true; true] [_ACK; firmware_answer]) [])
  = (Ok tt,
     World (Script [] [] [])
       [EvReset 20; EvWakeup; EvWrite firmware_command; EvWaitReady (QArith_base.Qmake 1 2);
        EvRead 6; EvWaitReady (QArith_base.Qmake 1 2); EvRead 13]).
Proof.
  apply (init_first_attempt_suffices scripted (Some 20)
           (World (Script [] [true; true] [_ACK; firmware_answer]) [])
           (World (Script [] [true; true] [_ACK; firmware_answer]) [EvReset 20])
           _ (Script [] [true; true] [_ACK; firmware_answer]) [0x32; 0x01; 0x06; 0x07]).
  - cbn. eexists. split; reflexivity.
  - reflexivity.
  - vm_compute. reflexivity.
Defined.

Lemma init_reset_pin_witness :
  PN532.__init__ base_class (Some 20) (World tt [])
  = (Raise NotImplementedError, World tt [EvReset 20]).
Proof.
  apply (proj2 (init_reset_pin base_class (World tt [])) 20 NotImplementedError tt).
  - lia.
  - reflexivity.
Defined.

Lemma init_first_failure_propagates_witness :
  PN532.__init__ scripted None (World (Script [] [true; true] [_ACK; []]) [])
  = (Raise IndexError,
     World (Script [] [] [])
       [EvWakeup; EvWrite firmware_command; EvWaitReady (QArith_base.Qmake 1 2);
        EvRead 6; EvWaitReady (QArith_base.Qmake 1 2); EvRead 13]).
Proof.
  apply (init_first_failure_propagates scripted None
           (World (Script [] [true; true] [_ACK; []]) [])
           (World (Script [] [true; true] [_ACK; []]) [])
           _ (Script [] [true; true] [_ACK; []]) IndexError).
  - reflexivity.
  - reflexivity.
  - vm_compute. reflexivity.
  - reflexivity.
Defined.

Lemma dump_loop_block_witness :
  (dump_loop scripted [0xAA; 0xBB; 0xCC; 0xDD] range8 []
     (World (Script [] [true; true] [_ACK; auth_failed_answer]) [])).1 = Ok [] /\
  (dump_loop scripted [0xAA; 0xBB; 0xCC; 0xDD] range8 [] (World (Script [] [] []) [])).1
    = Raise TypeError.
Proof.
  unfold range8. split.
  - set (w := World (Script [] [true; true] [_ACK; auth_failed_answer]) []).
    erewrite (proj1 (dump_loop_block scripted [0xAA; 0xBB; 0xCC; 0xDD] [1; 2; 3; 4; 5; 6; 7]
                       0 [] w)
                (PN532Error (mkPN532Error 0x14 "PN532 ERROR MIFARE_AUTH"))).
    + reflexivity.
    + vm_compute. reflexivity.
  - set (w := World (Script [] [] []) []).
    erewrite (proj1 (dump_loop_block scripted [0xAA; 0xBB; 0xCC; 0xDD] [1; 2; 3; 4; 5; 6; 7]
                       0 [] w) TypeError).
    + reflexivity.
    + vm_compute. reflexivity.
Defined.

Lemma dump_at_most_eight_lines_witness :
  led_pin [] = 19.
Proof.
  set (w := World (Script [] [true; true] [_ACK; auth_failed_answer]) []).
  refine (proj2 (dump_at_most_eight_lines scripted [0xAA; 0xBB; 0xCC; 0xDD] []
                   w (dump_loop scripted [0xAA; 0xBB; 0xCC; 0xDD] range8 [] w).2 _) _).
  - vm_compute. reflexivity.
  - simpl. lia.
Defined.
